(** * ckanext-contact: the validation-and-composition pipeline

    A shallow embedding of [ckanext/contact/routes/_helpers.py]
    ([validate], [build_subject], [submit]), the properties its
    specification states about it, and further properties of the three
    functions: what they report, what they send, how they fail.

    Python dictionaries are finite maps ([gmap string _]); the statements
    that mutate [data_dict] and [mail_dict] in place are threaded as
    explicit rebinding of the map.  Exceptions, the log, the wall clock and
    the calls to the collaborators (reCAPTCHA, template rendering, dataset
    lookup, plugins, mailer) are carried by a state-and-exception monad
    whose state records the calls made so far. *)

From Stdlib Require Import Ascii.
From stdpp Require Import gmap strings list fin_maps pretty.

Open Scope string_scope.
Open Scope list_scope.

(** ** Python values and exceptions *)

(** The values a configuration entry, a dataset field or a mail header can
    hold, as far as this module distinguishes them. *)
Inductive value : Type :=
  | VNone
  | VBool (b : bool)
  | VStr (s : string).

#[global] Instance value_eq_dec : EqDecision value.
Proof. solve_decision. Defined.

(** [str(v)], as used by [str.format] and f-strings. *)
Definition py_str (v : value) : string :=
  match v with
  | VNone => "None"
  | VBool true => "True"
  | VBool false => "False"
  | VStr s => s
  end.

(** Truth value of an object in an [if]. *)
Definition truthy (v : value) : bool :=
  match v with
  | VNone => false
  | VBool b => b
  | VStr s => negb (String.eqb s "")
  end.

(** The exceptions that can travel through this module.  [SocketError] is
    [socket.error]; [OtherError] stands for anything a collaborator raises
    that the module has no handler for. *)
Inductive exn : Type :=
  | KeyError (key : string)
  | ValueError (msg : string)
  | RecaptchaError (reason : string)
  | MailerException (msg : string)
  | SocketError (msg : string)
  | OtherError (msg : string).

Inductive result (A : Type) : Type :=
  | Ok (a : A)
  | Raise (e : exn).
Arguments Ok {A} a.
Arguments Raise {A} e.

(** ** Data model *)

(** [mail_dict]: the keyword arguments of [mailer.mail_recipient]. *)
Record mail_dict : Type := MailDict {
  recipient_email : value;
  recipient_name : value;
  subject : string;
  body : string;
  body_html : string;
  headers : gmap string value
}.

(** The named values handed to [render_template]. *)
Record template_args : Type := TemplateArgs {
  t_name : string;
  t_email : string;
  t_contact_type : string;
  t_resource : string;
  t_maintainer : string;
  t_url : string;
  t_pkg_url : string;
  t_message : string;
  t_timestamp : string;
  t_site_title : value;
  t_site_url : string;
  t_subject : string
}.

(** A UTC instant, as [datetime.now(timezone.utc)] returns it. *)
Record datetime : Type := DateTime {
  year : nat; month : nat; day : nat;
  hour : nat; minute : nat; second : nat
}.

(** What the module does to the outside world, in order. *)
Inductive event : Type :=
  | ELogInfo (msg : string)
  | ECheckRecaptcha (token expected_action : value)
  | ERenderTemplate (template : string) (args : template_args)
  | EPackageShow (id : string)
  | EMailAlter (n : nat) (m : mail_dict) (d : gmap string string)
  | EMailRecipient (m : mail_dict).

(** The result of [submit]. *)
Record outcome : Type := Outcome {
  success : bool;
  data : gmap string string;
  errors : gmap string (list string);
  error_summary : gmap string string;
  recaptcha_error : option string
}.

(** The collaborators of the module: everything it imports and calls but
    does not define. *)
Record env : Type := Env {
  (** [toolkit.config]: the site settings, strings keyed by strings *)
  config : gmap string string;
  (** [toolkit._] *)
  gettext : string -> string;
  (** [ckan.common.asbool] *)
  asbool : value -> result bool;
  (** [recaptcha.check_recaptcha(token, expected_action)] *)
  check_recaptcha : value -> value -> result unit;
  (** the instant read by the n-th call of [datetime.now] *)
  clock : nat -> datetime;
  (** [markupsafe.escape] *)
  escape : string -> string;
  (** [flask.render_template] *)
  render_template : string -> template_args -> result string;
  (** [toolkit.url_for('home.index', _external=True)] *)
  home_url : string;
  (** [toolkit.get_action('package_show')(None, {'id': id})] *)
  package_show : string -> result (gmap string value);
  (** [PluginImplementations(IContact)], each by its [mail_alter] *)
  plugins : list (mail_dict -> gmap string string ->
                  result (mail_dict * gmap string string));
  (** [mailer.mail_recipient], called with [mail_dict] as keyword arguments *)
  mail_recipient : mail_dict -> result unit
}.

(** ** The monad: state and exceptions *)

Record state : Type := State {
  ticks : nat;
  events : list event
}.

Definition M (A : Type) : Type := state -> result A * state.

Definition ret {A} (a : A) : M A := fun st => (Ok a, st).

Definition bind {A B} (m : M A) (k : A -> M B) : M B :=
  fun st =>
    match m st with
    | (Ok a, st') => k a st'
    | (Raise e, st') => (Raise e, st')
    end.

Definition raise {A} (e : exn) : M A := fun st => (Raise e, st).

Definition lift {A} (r : result A) : M A := fun st => (r, st).

Definition emit (ev : event) : M unit :=
  fun st => (Ok tt, State (ticks st) (events st ++ [ev])).

(** [try: m except <the exceptions h accepts>: h e] *)
Definition try_except {A} (m : M A) (h : exn -> option (M A)) : M A :=
  fun st =>
    match m st with
    | (Ok a, st') => (Ok a, st')
    | (Raise e, st') =>
        match h e with
        | Some k => k st'
        | None => (Raise e, st')
        end
    end.

Declare Scope py_scope.
Delimit Scope py_scope with py.
Notation "'let!' x ':=' m 'in' k" := (bind m (fun x => k))
  (at level 10, x pattern, m at level 100, k at level 200) : py_scope.
Open Scope py_scope.

(** ** Dictionary and clock primitives *)

(** [d[k]] *)
Definition getitem (d : gmap string string) (k : string) : M string :=
  match d !! k with
  | Some v => ret v
  | None => raise (KeyError k)
  end.

(** [k not in d or d[k] == ''] *)
Definition absent_or_empty (d : gmap string string) (k : string) : bool :=
  match d !! k with
  | Some v => bool_decide (v = "")
  | None => true
  end.

(** [toolkit.config.get(k, dflt)] *)
Definition config_get (e : env) (k : string) (dflt : value) : value :=
  from_option VStr dflt (config e !! k).

Definition pad (w n : nat) : string :=
  let s := pretty n in
  String.concat "" (replicate (w - String.length s) "0") +:+ s.

(** [dt.strftime('%Y-%m-%d %H:%M:%S %Z')] for an instant in UTC. *)
Definition strftime_utc (dt : datetime) : string :=
  pad 4 (year dt) +:+ "-" +:+ pad 2 (month dt) +:+ "-" +:+ pad 2 (day dt)
  +:+ " " +:+ pad 2 (hour dt) +:+ ":" +:+ pad 2 (minute dt) +:+ ":"
  +:+ pad 2 (second dt) +:+ " UTC".

(** [datetime.now(timezone.utc)] *)
Definition now (e : env) : M datetime :=
  fun st => (Ok (clock e (ticks st)), State (S (ticks st)) (events st)).

Definition nl : string := String "010"%char "".
Definition dquote : string := String "034"%char "".

(** ** validate (lines 25-54) *)

Definition required_fields : list string := ["email"; "name"; "content"].

(** [value is None or value == ''], for [value = data_dict.get(field, None)] *)
Definition missing (d : gmap string string) (field : string) : Prop :=
  d !! field = None \/ d !! field = Some "".

#[global] Instance missing_dec d field : Decision (missing d field).
Proof. unfold missing. apply _. Defined.

(** One turn of the loop over the required fields. *)
Definition validate_field (d : gmap string string)
    (acc : gmap string (list string) * gmap string string) (field : string)
    : gmap string (list string) * gmap string string :=
  if bool_decide (missing d field)
  then (<[field := ["Missing Value"]]> acc.1,
        <[field := "Missing value"]> acc.2)
  else acc.

Definition recaptcha_failed_msg : string :=
  "Recaptcha check failed, please try again.".

Definition validate (e : env) (d : gmap string string)
    : M (gmap string (list string) * gmap string string * option string) :=
  let '(errors, error_summary) :=
    foldl (validate_field d) (∅, ∅) required_fields in
  if bool_decide (errors = ∅)
  then
    let expected_action :=
      config_get e "ckanext.contact.recaptcha_v3_action" VNone in
    let token := from_option VStr VNone (d !! "g-recaptcha-response") in
    try_except
      (let! _ := emit (ECheckRecaptcha token expected_action) in
       let! _ := lift (check_recaptcha e token expected_action) in
       ret (errors, error_summary, None))
      (fun ex =>
         match ex with
         | RecaptchaError reason =>
             Some (let! _ :=
                     emit (ELogInfo ("Recaptcha failed due to " +:+ dquote
                                     +:+ reason +:+ dquote +:+ " : "
                                     +:+ py_str expected_action)) in
                   ret (errors, error_summary,
                        Some (gettext e recaptcha_failed_msg)))
         | _ => None
         end)
  else ret (errors, error_summary, None).

(** ** build_subject (lines 57-71) *)

Definition build_subject (e : env)
    (form_variant contact_type subject_default : string)
    (timestamp_default : value) : M string :=
  let subject :=
    default (gettext e subject_default)
            (config e !! ("ckanext." +:+ form_variant +:+ ".subject")) in
  let subject :=
    if bool_decide (form_variant = "contact")
    then subject +:+ " : " +:+ contact_type
    else subject in
  let! flag := lift (asbool e (config_get e "ckanext.contact.add_timestamp_to_subject"
                                     timestamp_default)) in
  if flag
  then (let! t := now e in
        ret (subject +:+ " [" +:+ strftime_utc t +:+ "]"))
  else ret subject.

(** The defaults of the keyword parameters [subject_default] and
    [timestamp_default], which [submit] leaves unset. *)
Definition subject_default0 : string := "Contact from visitor".
Definition timestamp_default0 : value := VBool false.

(** ** submit (lines 74-192) *)

(** Lines 95-97: the default of the form variant. *)
Definition set_default_form_variant (d : gmap string string)
    : M (gmap string string) :=
  let! fv := getitem d "form_variant" in
  ret (if bool_decide (fv = "") then <["form_variant" := "contact"]> d else d).

(** Lines 99-102: the message and its sender open the plain-text body. *)
Definition body_head (d : gmap string string) : M (list string) :=
  let! content := getitem d "content" in
  let body_parts := [content +:+ nl] in
  let body_parts := body_parts ++ ["Sent by:"] in
  let! name := getitem d "name" in
  let body_parts := body_parts ++ ["  Name: " +:+ name] in
  let! email := getitem d "email" in
  let body_parts := body_parts ++ ["  Email: " +:+ email] in
  ret body_parts.

(** Lines 103-107: the dataset URL, if there is one. *)
Definition add_dataset_url (d : gmap string string) (body_parts : list string)
    : gmap string string * list string :=
  match d !! "pkg-url" with
  | Some u =>
      if bool_decide (u <> "")
      then (d, body_parts ++ ["  Dataset URL: " +:+ u])
      else (<["pkg-url" := ""]> d, body_parts)
  | None => (<["pkg-url" := ""]> d, body_parts)
  end.

(** Lines 109-111: the default of the contact type. *)
Definition set_default_contact_type (d : gmap string string)
    (body_parts : list string) : gmap string string * list string :=
  if absent_or_empty d "contact_type"
  then (<["contact_type" := "Question"]> d,
        body_parts ++ ["  Contact Type: " +:+ "Question"])
  else (d, body_parts).

(** Lines 113-135: the fields of a dataset suggestion. *)
Definition set_suggestion_fields (d : gmap string string)
    (body_parts : list string) : M (gmap string string * list string) :=
  let! fv := getitem d "form_variant" in
  if bool_decide (fv = "suggest_dataset")
  then (
    let d := if absent_or_empty d "resource" then <["resource" := "N/A"]> d else d in
    let d := if absent_or_empty d "maintainer" then <["maintainer" := "N/A"]> d else d in
    let d := if absent_or_empty d "url" then <["url" := "N/A"]> d else d in
    let! ct := getitem d "contact_type" in
    let d := if bool_decide (ct = "Both")
             then <["contact_type" := "Data and Application"]> d else d in
    let! resource := getitem d "resource" in
    let body_parts := body_parts ++ ["  Title of Resource: " +:+ resource] in
    let! maintainer := getitem d "maintainer" in
    let body_parts :=
      body_parts ++ ["  Who owns or maintains this resource? " +:+ maintainer] in
    let! url := getitem d "url" in
    let body_parts := body_parts ++ ["  Link: " +:+ url] in
    ret (d, body_parts))
  else
    let d := <["resource" := ""]> d in
    let d := <["maintainer" := ""]> d in
    let d := <["url" := ""]> d in
    ret (d, body_parts).

(** Lines 95-135: the defaults of the optional fields and the lines of the
    plain-text body.  Returns [data_dict] as the statements leave it and
    [body_parts]. *)
Definition submit_normalize (d : gmap string string)
    : M (gmap string string * list string) :=
  let! d := set_default_form_variant d in
  let! body_parts := body_head d in
  let '(d, body_parts) := add_dataset_url d body_parts in
  let '(d, body_parts) := set_default_contact_type d body_parts in
  set_suggestion_fields d body_parts.

(** Lines 137-166: the dictionary display that builds [mail_dict]; its
    entries are evaluated in the order they are written. *)
Definition submit_mail_dict (e : env) (d : gmap string string)
    (body_parts : list string) : M mail_dict :=
  let recipient_email :=
    config_get e "ckanext.contact.mail_to" (config_get e "email_to" VNone) in
  let recipient_name :=
    config_get e "ckanext.contact.recipient_name"
               (config_get e "ckan.site_title" VNone) in
  let! fv := getitem d "form_variant" in
  let! ct := getitem d "contact_type" in
  let! subject := build_subject e fv ct subject_default0 timestamp_default0 in
  let body := String.concat nl body_parts in
  let! fv := getitem d "form_variant" in
  let! name := getitem d "name" in
  let! email := getitem d "email" in
  let! ct := getitem d "contact_type" in
  let! resource := getitem d "resource" in
  let! maintainer := getitem d "maintainer" in
  let! url := getitem d "url" in
  let! pkg_url := getitem d "pkg-url" in
  let! content := getitem d "content" in
  let message := escape e content in
  let! t := now e in
  let timestamp := strftime_utc t in
  let site_title := config_get e "ckan.site_title" VNone in
  let site_url := home_url e in
  let! fv' := getitem d "form_variant" in
  let! ct' := getitem d "contact_type" in
  let! subject' := build_subject e fv' ct' subject_default0 timestamp_default0 in
  let template := "emails/" +:+ fv +:+ ".html" in
  let args := TemplateArgs name email ct resource maintainer url pkg_url
                           message timestamp site_title site_url subject' in
  let! _ := emit (ERenderTemplate template args) in
  let! body_html := lift (render_template e template args) in
  let! email := getitem d "email" in
  ret (MailDict recipient_email recipient_name subject body body_html
                {["Reply-to" := VStr email]}).

(** [pkg["data_contact_email"]] *)
Definition pkg_getitem (pkg : gmap string value) (k : string) : M value :=
  match pkg !! k with
  | Some v => ret v
  | None => raise (KeyError k)
  end.

(** Lines 168-175: the destination default and the rerouting to the
    contact of the dataset. *)
Definition submit_reroute (e : env) (m : mail_dict) (d : gmap string string)
    : M (mail_dict * gmap string string) :=
  let d := match d !! "contact_dest" with
           | None => <["contact_dest" := "data-hub-support"]> d
           | Some _ => d
           end in
  let! dest := getitem d "contact_dest" in
  if bool_decide (dest ≠ "data-hub-support") && negb (absent_or_empty d "pkg-id")
  then (
    let! id := getitem d "pkg-id" in
    let! _ := emit (EPackageShow id) in
    let! pkg := lift (package_show e id) in
    let! contact := pkg_getitem pkg "data_contact_email" in
    if truthy contact
    then (
      let hdrs := <["cc" := recipient_email m]> (headers m) in
      let! contact := pkg_getitem pkg "data_contact_email" in
      ret (MailDict contact (recipient_name m) (subject m) (body m)
                    (body_html m) hdrs, d))
    else ret (m, d))
  else ret (m, d).

(** Lines 96-175: the message composer. *)
Definition submit_compose (e : env) (d : gmap string string)
    : M (mail_dict * gmap string string) :=
  let! (d, body_parts) := submit_normalize d in
  let! m := submit_mail_dict e d body_parts in
  submit_reroute e m d.

(** Lines 177-179: every plugin may alter [mail_dict] and [data_dict], in
    registration order; [n] counts the plugins already served. *)
Fixpoint submit_dispatch
    (ps : list (mail_dict -> gmap string string ->
                result (mail_dict * gmap string string)))
    (n : nat) (m : mail_dict) (d : gmap string string)
    : M (mail_dict * gmap string string) :=
  match ps with
  | [] => ret (m, d)
  | plugin :: ps' =>
      let! _ := emit (EMailAlter n m d) in
      let! (m', d') := lift (plugin m d) in
      submit_dispatch ps' (S n) m' d'
  end.

(** Lines 181-184: the one attempt to send; returns [email_success]. *)
Definition submit_send (e : env) (m : mail_dict) : M bool :=
  try_except
    (let! _ := emit (EMailRecipient m) in
     let! _ := lift (mail_recipient e m) in
     ret true)
    (fun ex =>
       match ex with
       | MailerException _ | SocketError _ => Some (ret false)
       | _ => None
       end).

(** [submit], from the parsed request parameters [data_dict] (lines 85-87
    belong to the request layer). *)
Definition submit (e : env) (data_dict : gmap string string) : M outcome :=
  let email_success := true in
  let! (errors, error_summary, recaptcha_error) := validate e data_dict in
  let! (data_dict, email_success) :=
    (if bool_decide (errors = ∅) && bool_decide (recaptcha_error = None)
     then (
       let! (m, d) := submit_compose e data_dict in
       let! (m, d) := submit_dispatch (plugins e) 0 m d in
       let! ok := submit_send e m in
       ret (d, ok))
     else ret (data_dict, email_success)) in
  ret (Outcome (bool_decide (recaptcha_error = None)
                && bool_decide (errors = ∅) && email_success)
               data_dict errors error_summary recaptcha_error).

(** ** A reference deployment

    Concrete collaborators, used to run the model on examples. *)

Definition is_space (c : ascii) : bool :=
  let n := nat_of_ascii c in
  (((9 <=? n) && (n <=? 13)) || ((28 <=? n) && (n <=? 32)))%nat.

Definition lower_char (c : ascii) : ascii :=
  let n := nat_of_ascii c in
  if ((65 <=? n) && (n <=? 90))%nat then ascii_of_nat (n + 32) else c.

Fixpoint lower (s : string) : string :=
  match s with
  | EmptyString => EmptyString
  | String c s' => String (lower_char c) (lower s')
  end.

Fixpoint lstrip (s : string) : string :=
  match s with
  | EmptyString => EmptyString
  | String c s' => if is_space c then lstrip s' else s
  end.

Fixpoint rstrip (s : string) : string :=
  match s with
  | EmptyString => EmptyString
  | String c s' =>
      match rstrip s' with
      | EmptyString => if is_space c then EmptyString else String c EmptyString
      | r => String c r
      end
  end.

(** [ckan.common.asbool] on ASCII text: the words for true and false after
    [strip().lower()], [ValueError] for any other string, [bool(obj)] for
    an object that is not a string. *)
Definition ckan_asbool (v : value) : result bool :=
  match v with
  | VStr s =>
      let s := lower (rstrip (lstrip s)) in
      if bool_decide (s ∈ ["true"; "yes"; "on"; "y"; "t"; "1"]) then Ok true
      else if bool_decide (s ∈ ["false"; "no"; "off"; "n"; "f"; "0"]) then Ok false
      else Raise (ValueError ("String is not true/false: " +:+ s))
  | VBool b => Ok b
  | VNone => Ok false
  end.

Definition site_config : gmap string string :=
  <["email_to" := "admin@example.org"]>
  (<["ckan.site_title" := "Data Hub"]> ∅).

Definition site : env := {|
  config := site_config;
  gettext := fun s => s;
  asbool := ckan_asbool;
  check_recaptcha := fun _ _ => Ok tt;
  clock := fun n => DateTime 2024 3 9 14 5 n;
  escape := fun s => s;
  render_template := fun t a => Ok ("<p>" +:+ t_message a +:+ "</p>");
  home_url := "https://data.example.org/";
  package_show := fun id =>
    if bool_decide (id = "ds1")
    then Ok (<["data_contact_email" := VStr "owner@example.org"]> ∅)
    else Raise (OtherError "NotFound");
  plugins := [];
  mail_recipient := fun _ => Ok tt
|}.

Definition st0 : state := State 0 [].

Definition form_ok : gmap string string :=
  <["email" := "a@b.com"]> (<["name" := "A"]> (<["content" := "Hi"]>
  (<["form_variant" := ""]> ∅))).

(** ** Auxiliary definitions

    The notions the properties below are stated with, and the
    deployments and submissions they are run on. *)

(** A submission with an empty name. *)
Definition form_no_name : gmap string string :=
  <["email" := "a@b.com"]> (<["content" := "Hi"]> (<["name" := ""]> ∅)).

(** The arguments [validate] hands to [recaptcha.check_recaptcha]. *)
Definition recaptcha_token (d : gmap string string) : value :=
  from_option VStr VNone (d !! "g-recaptcha-response").
Definition recaptcha_action (e : env) : value :=
  config_get e "ckanext.contact.recaptcha_v3_action" VNone.

(** A deployment whose reCAPTCHA check rejects every token. *)
Definition site_captcha_down : env := {|
  config := config site;
  gettext := gettext site;
  asbool := asbool site;
  check_recaptcha := fun _ _ => Raise (RecaptchaError "timeout-or-duplicate");
  clock := clock site;
  escape := escape site;
  render_template := render_template site;
  home_url := home_url site;
  package_show := package_show site;
  plugins := plugins site;
  mail_recipient := mail_recipient site
|}.

(** The configuration key [build_subject] looks the subject up under. *)
Definition subject_key (form_variant : string) : string :=
  "ckanext." +:+ form_variant +:+ ".subject".

(** The configured subject, or the translated default. *)
Definition subject_base (e : env) (form_variant subject_default : string)
    : string :=
  default (gettext e subject_default) (config e !! subject_key form_variant).

(** The 'add timestamp' flag as [build_subject] reads it. *)
Definition timestamp_flag (e : env) (timestamp_default : value) : result bool :=
  asbool e (config_get e "ckanext.contact.add_timestamp_to_subject"
                       timestamp_default).

(** The same site an hour later, after other requests. *)
Definition site_later : env := {|
  config := config site;
  gettext := gettext site;
  asbool := asbool site;
  check_recaptcha := check_recaptcha site;
  clock := fun n => DateTime 2024 3 9 15 5 n;
  escape := escape site;
  render_template := render_template site;
  home_url := home_url site;
  package_show := package_show site;
  plugins := plugins site;
  mail_recipient := mail_recipient site
|}.

(** The key under which the configuration contract of the specification
    lists the subject of a variant, as the specification writes it and with
    the prefix the other keys of the extension carry. *)
Definition contract_subject_key (form_variant : string) : string :=
  "contact." +:+ form_variant +:+ ".subject".
Definition prefixed_contract_subject_key (form_variant : string) : string :=
  "ckanext.contact." +:+ form_variant +:+ ".subject".

(** [build_subject] reads its subject under [key v], falling back to the
    translated default. *)
Definition reads_subject_from (key : string -> string) : Prop :=
  forall e v ct sd td st,
    build_subject e v ct sd td st =
    match timestamp_flag e td with
    | Raise ex => (Raise ex, st)
    | Ok flag =>
        let base := default (gettext e sd) (config e !! key v) in
        let subject :=
          if bool_decide (v = "contact") then base +:+ " : " +:+ ct else base in
        if flag
        then (Ok (subject +:+ " [" +:+ strftime_utc (clock e (ticks st)) +:+ "]"),
              State (S (ticks st)) (events st))
        else (Ok subject, st)
    end.

(** A site that sets the subject of the contact form under the keys of the
    configuration contract. *)
Definition site_contract_keys : env := {|
  config :=
    <[contract_subject_key "contact" := "Feedback"]>
    (<[prefixed_contract_subject_key "contact" := "Feedback"]> site_config);
  gettext := gettext site;
  asbool := asbool site;
  check_recaptcha := check_recaptcha site;
  clock := clock site;
  escape := escape site;
  render_template := render_template site;
  home_url := home_url site;
  package_show := package_show site;
  plugins := plugins site;
  mail_recipient := mail_recipient site
|}.

(** The value [d[k]] holds after [if k not in d or d[k] == '': d[k] = dflt]. *)
Definition field_or (d : gmap string string) (k dflt : string) : string :=
  match d !! k with
  | Some v => if bool_decide (v = "") then dflt else v
  | None => dflt
  end.

(** The form variant in force: 'contact' when the field is empty. *)
Definition variant_of (fv : string) : string :=
  if bool_decide (fv = "") then "contact" else fv.

(** The lines that open the body. *)
Definition sender_lines (content name email : string) : list string :=
  [content +:+ nl; "Sent by:"; "  Name: " +:+ name; "  Email: " +:+ email].

(** The 'Dataset URL' line, present when the submission has a URL. *)
Definition dataset_url_lines (d : gmap string string) : list string :=
  if absent_or_empty d "pkg-url" then []
  else ["  Dataset URL: " +:+ field_or d "pkg-url" ""].

(** The 'Contact Type' line, present when the type had to be defaulted. *)
Definition contact_type_lines (d : gmap string string) : list string :=
  if absent_or_empty d "contact_type" then ["  Contact Type: Question"] else [].

Definition suggestion_lines (d : gmap string string) : list string :=
  ["  Title of Resource: " +:+ field_or d "resource" "N/A";
   "  Who owns or maintains this resource? " +:+ field_or d "maintainer" "N/A";
   "  Link: " +:+ field_or d "url" "N/A"].

Definition touched_fields : list string :=
  ["form_variant"; "pkg-url"; "contact_type"; "resource"; "maintainer"; "url"].

(** The recipient the configuration names. *)
Definition default_recipient (e : env) : value :=
  config_get e "ckanext.contact.mail_to" (config_get e "email_to" VNone).
Definition default_recipient_name (e : env) : value :=
  config_get e "ckanext.contact.recipient_name"
             (config_get e "ckan.site_title" VNone).

(** The mails handed to the mailer, in order. *)
Definition sent (evs : list event) : list mail_dict :=
  flat_map (fun ev => match ev with EMailRecipient m => [m] | _ => [] end) evs.

(** The data-contact email of the dataset a submission is about, when its
    destination is not 'data-hub-support', it names a dataset and the
    dataset has such an email. *)
Definition dataset_contact (e : env) (d : gmap string string) : option value :=
  match d !! "contact_dest", d !! "pkg-id" with
  | Some dest, Some id =>
      if bool_decide (dest <> "data-hub-support") && bool_decide (id <> "")
      then match package_show e id with
           | Ok pkg =>
               match pkg !! "data_contact_email" with
               | Some v => if truthy v then Some v else None
               | None => None
               end
           | Raise _ => None
           end
      else None
  | _, _ => None
  end.

(** A question about the dataset 'ds1', addressed to its contact. *)
Definition form_dataset : gmap string string :=
  <["contact_dest" := "dataset-contact"]> (<["pkg-id" := "ds1"]> form_ok).

(** The message and the submission a run of [submit_compose] returned. *)
Definition composed_mail (r : result (mail_dict * gmap string string) * state)
    : mail_dict :=
  match r with
  | (Ok (m, _), _) => m
  | _ => MailDict VNone VNone "" "" "" ∅
  end.
Definition composed_data (r : result (mail_dict * gmap string string) * state)
    : gmap string string :=
  match r with
  | (Ok (_, d), _) => d
  | _ => ∅
  end.

(** A dataset suggestion that names the resource only. *)
Definition form_suggestion : gmap string string :=
  <["form_variant" := "suggest_dataset"]>
  (<["contact_type" := "Both"]> (<["resource" := "Tide tables"]>
  (<["url" := ""]> form_ok))).

(** Equality is decidable on everything a run returns, so two closed runs
    can be compared by evaluation. *)
#[global] Instance exn_eq_dec : EqDecision exn.
Proof. solve_decision. Defined.
#[global] Instance result_eq_dec `{EqDecision A} : EqDecision (result A).
Proof. solve_decision. Defined.
#[global] Instance mail_dict_eq_dec : EqDecision mail_dict.
Proof. solve_decision. Defined.
#[global] Instance template_args_eq_dec : EqDecision template_args.
Proof. solve_decision. Defined.
#[global] Instance datetime_eq_dec : EqDecision datetime.
Proof. solve_decision. Defined.
#[global] Instance event_eq_dec : EqDecision event.
Proof. solve_decision. Defined.
#[global] Instance state_eq_dec : EqDecision state.
Proof. solve_decision. Defined.
#[global] Instance outcome_eq_dec : EqDecision outcome.
Proof. solve_decision. Defined.

(** A deployment whose mail server refuses connections. *)
Definition site_mail_down : env := {|
  config := config site;
  gettext := gettext site;
  asbool := asbool site;
  check_recaptcha := check_recaptcha site;
  clock := clock site;
  escape := escape site;
  render_template := render_template site;
  home_url := home_url site;
  package_show := package_show site;
  plugins := plugins site;
  mail_recipient := fun _ => Raise (SocketError "Connection refused")
|}.

(** The subject [submit] asks [build_subject] for, with the clock read at
    [tick] when the timestamp is switched on. *)
Definition subject_line (e : env) (fv ct : string) (flag : bool) (tick : nat)
    : string :=
  let subject :=
    if bool_decide (fv = "contact")
    then subject_base e fv subject_default0 +:+ " : " +:+ ct
    else subject_base e fv subject_default0 in
  if flag then subject +:+ " [" +:+ strftime_utc (clock e tick) +:+ "]"
  else subject.

(** The clock reads of one call of [build_subject]. *)
Definition clock_reads (flag : bool) : nat := if flag then 1 else 0.

Definition template_of (fv : string) : string := "emails/" +:+ fv +:+ ".html".

(** A submission whose form left the variant field out. *)
Definition form_no_variant : gmap string string :=
  <["email" := "a@b.com"]> (<["name" := "A"]> (<["content" := "Hi"]> ∅)).

(** A question that names its type, beside [form_ok], which does not. *)
Definition form_typed : gmap string string :=
  <["contact_type" := "Issue"]> form_ok.

(** A deployment whose reCAPTCHA service cannot be reached. *)
Definition site_captcha_unreachable : env := {|
  config := config site;
  gettext := gettext site;
  asbool := asbool site;
  check_recaptcha := fun _ _ => Raise (OtherError "ConnectionError");
  clock := clock site;
  escape := escape site;
  render_template := render_template site;
  home_url := home_url site;
  package_show := package_show site;
  plugins := plugins site;
  mail_recipient := mail_recipient site
|}.

(** A computation that never calls the mailer, however it ends. *)
Definition silent {A} (m : M A) : Prop :=
  forall st, sent (events (m st).2) = sent (events st).

(** The contact type after lines 109-123, for a submission whose
    'form_variant' field holds [fv]. *)
Definition contact_type_of (d : gmap string string) (fv : string) : string :=
  let ct := field_or d "contact_type" "Question" in
  if bool_decide (variant_of fv = "suggest_dataset") && bool_decide (ct = "Both")
  then "Data and Application" else ct.

(** 'resource', 'maintainer' or 'url' after lines 113-135. *)
Definition optional_of (d : gmap string string) (fv k : string) : string :=
  if bool_decide (variant_of fv = "suggest_dataset")
  then field_or d k "N/A" else "".

(** [data_dict] after lines 95-135. *)
Definition normalized (d : gmap string string) (fv : string)
    : gmap string string :=
  <["form_variant" := variant_of fv]>
  (<["pkg-url" := field_or d "pkg-url" ""]>
  (<["contact_type" := contact_type_of d fv]>
  (<["resource" := optional_of d fv "resource"]>
  (<["maintainer" := optional_of d fv "maintainer"]>
  (<["url" := optional_of d fv "url"]> d))))).

(** [body_parts] after lines 99-127. *)
Definition body_lines (d : gmap string string) (fv content name email : string)
    : list string :=
  sender_lines content name email ++ dataset_url_lines d
  ++ contact_type_lines d
  ++ (if bool_decide (variant_of fv = "suggest_dataset")
      then suggestion_lines d else []).

(** The named values [submit] hands to the template, the first clock read
    of the composer being number [tick]. *)
Definition template_args_of (e : env) (d : gmap string string)
    (fv content name email : string) (flag : bool) (tick : nat)
    : template_args :=
  TemplateArgs name email (contact_type_of d fv)
               (optional_of d fv "resource") (optional_of d fv "maintainer")
               (optional_of d fv "url") (field_or d "pkg-url" "")
               (escape e content)
               (strftime_utc (clock e (tick + clock_reads flag)))
               (config_get e "ckan.site_title" VNone) (home_url e)
               (subject_line e (variant_of fv) (contact_type_of d fv) flag
                             (tick + clock_reads flag + 1)).

(** [mail_dict] as line 137-166 build it, [html] being the rendered
    template. *)
Definition composed (e : env) (d : gmap string string)
    (fv content name email : string) (flag : bool) (tick : nat) (html : string)
    : mail_dict :=
  MailDict (default_recipient e) (default_recipient_name e)
           (subject_line e (variant_of fv) (contact_type_of d fv) flag tick)
           (String.concat nl (body_lines d fv content name email)) html
           {["Reply-to" := VStr email]}.

(** A deployment that stamps its subjects. *)
Definition site_timestamps : env := {|
  config := <["ckanext.contact.add_timestamp_to_subject" := "true"]> site_config;
  gettext := gettext site;
  asbool := asbool site;
  check_recaptcha := check_recaptcha site;
  clock := clock site;
  escape := escape site;
  render_template := render_template site;
  home_url := home_url site;
  package_show := package_show site;
  plugins := plugins site;
  mail_recipient := mail_recipient site
|}.

(** A submission that carries fields the module knows nothing about. *)
Definition form_extra : gmap string string :=
  <["g-recaptcha-response" := "token"]> (<["newsletter" := "yes"]> form_ok).

(** A question about a dataset the catalogue does not hold. *)
Definition form_unknown_dataset : gmap string string :=
  <["contact_dest" := "dataset-contact"]> (<["pkg-id" := "ds404"]> form_ok).

(** The submission [submit] returns when nothing is rerouted: the
    normalised fields, with the destination defaulted. *)
Definition delivered_data (d : gmap string string) (fv : string)
    : gmap string string :=
  match d !! "contact_dest" with
  | None => <["contact_dest" := "data-hub-support"]> (normalized d fv)
  | Some _ => normalized d fv
  end.


(** A deployment whose timestamp setting is not a boolean word. *)
Definition site_bad_flag : env := {|
  config := <["ckanext.contact.add_timestamp_to_subject" := "maybe"]> site_config;
  gettext := gettext site;
  asbool := asbool site;
  check_recaptcha := check_recaptcha site;
  clock := clock site;
  escape := escape site;
  render_template := render_template site;
  home_url := home_url site;
  package_show := package_show site;
  plugins := plugins site;
  mail_recipient := mail_recipient site
|}.

(** * Properties *)

(** Closed goals are settled by evaluation of their decision procedure. *)
Ltac by_evaluation := apply (bool_decide_unpack _); vm_compute; exact I.

(** ** Running the monad *)

Lemma bind_ok_inv {A B} (m : M A) (k : A -> M B) st b st' :
  bind m k st = (Ok b, st') ->
  exists a st1, m st = (Ok a, st1) /\ k a st1 = (Ok b, st').
Proof.
  unfold bind. destruct (m st) as [[a|ex] st1]; [eauto | discriminate].
Qed.

Lemma bind_ok {A B} (m : M A) (k : A -> M B) st a st1 :
  m st = (Ok a, st1) -> bind m k st = k a st1.
Proof. unfold bind. now intros ->. Qed.

Lemma bind_raise {A B} (m : M A) (k : A -> M B) st ex st1 :
  m st = (Raise ex, st1) -> bind m k st = (Raise ex, st1).
Proof. unfold bind. now intros ->. Qed.

Lemma getitem_some d k v st : d !! k = Some v -> getitem d k st = (Ok v, st).
Proof. unfold getitem. now intros ->. Qed.

Lemma getitem_none d k st :
  d !! k = None -> getitem d k st = (Raise (KeyError k), st).
Proof. unfold getitem. now intros ->. Qed.

Lemma getitem_ok_inv d k v st st' :
  getitem d k st = (Ok v, st') -> d !! k = Some v /\ st' = st.
Proof.
  unfold getitem. destruct (d !! k); cbn; intros [= ]; subst; auto.
Qed.

(** ** The required fields *)

(** The errors the loop of [validate] collects, for any list of fields and
    any maps it starts from. *)
Lemma validate_fold_errors d fields acc field :
  (foldl (validate_field d) acc fields).1 !! field =
  if bool_decide (field ∈ fields /\ missing d field)
  then Some ["Missing Value"] else acc.1 !! field.
Proof.
  revert acc. induction fields as [|f fields IH]; intros acc; cbn [foldl].
  - rewrite bool_decide_eq_false_2; [done|]. intros [H _]. by inversion H.
  - rewrite IH. unfold validate_field.
    destruct (decide (field ∈ fields /\ missing d field)) as [[Hin Hm]|Hn].
    + rewrite !bool_decide_eq_true_2; [done| |done]. split; [by right|done].
    + rewrite (bool_decide_eq_false_2 _ Hn).
      destruct (decide (missing d f)) as [Hf|Hf].
      * rewrite (bool_decide_eq_true_2 _ Hf). cbn [fst].
        destruct (decide (f = field)) as [->|Hne].
        -- rewrite lookup_insert_eq, bool_decide_eq_true_2; [done|].
           split; [by left|done].
        -- rewrite lookup_insert_ne by done.
           rewrite bool_decide_eq_false_2; [done|].
           intros [Hin Hm]. apply Hn. split; [|done].
           inversion Hin; subst; done.
      * rewrite (bool_decide_eq_false_2 _ Hf).
        rewrite bool_decide_eq_false_2; [done|].
        intros [Hin Hm]. inversion Hin; subst; [done|]. by apply Hn.
Qed.

Lemma validate_fold_summary d fields acc field :
  (foldl (validate_field d) acc fields).2 !! field =
  if bool_decide (field ∈ fields /\ missing d field)
  then Some "Missing value" else acc.2 !! field.
Proof.
  revert acc. induction fields as [|f fields IH]; intros acc; cbn [foldl].
  - rewrite bool_decide_eq_false_2; [done|]. intros [H _]. by inversion H.
  - rewrite IH. unfold validate_field.
    destruct (decide (field ∈ fields /\ missing d field)) as [[Hin Hm]|Hn].
    + rewrite !bool_decide_eq_true_2; [done| |done]. split; [by right|done].
    + rewrite (bool_decide_eq_false_2 _ Hn).
      destruct (decide (missing d f)) as [Hf|Hf].
      * rewrite (bool_decide_eq_true_2 _ Hf). cbn [snd].
        destruct (decide (f = field)) as [->|Hne].
        -- rewrite lookup_insert_eq, bool_decide_eq_true_2; [done|].
           split; [by left|done].
        -- rewrite lookup_insert_ne by done.
           rewrite bool_decide_eq_false_2; [done|].
           intros [Hin Hm]. apply Hn. split; [|done].
           inversion Hin; subst; done.
      * rewrite (bool_decide_eq_false_2 _ Hf).
        rewrite bool_decide_eq_false_2; [done|].
        intros [Hin Hm]. inversion Hin; subst; [done|]. by apply Hn.
Qed.

Lemma validate_fold_clean d :
  (forall f, f ∈ required_fields -> ~ missing d f) ->
  foldl (validate_field d) (∅, ∅) required_fields = (∅, ∅).
Proof.
  intros Hok.
  assert (Hno : forall f, bool_decide (f ∈ required_fields /\ missing d f) = false).
  { intros f. apply bool_decide_eq_false_2. intros [Hin Hm]. by apply (Hok f). }
  apply injective_projections; apply map_eq; intros f.
  - by rewrite validate_fold_errors, Hno.
  - by rewrite validate_fold_summary, Hno.
Qed.

Lemma validate_fold_dirty d :
  (exists f, f ∈ required_fields /\ missing d f) ->
  (foldl (validate_field d) (∅, ∅) required_fields).1 <> ∅.
Proof.
  intros (f & Hin & Hm) Hempty.
  pose proof (validate_fold_errors d required_fields (∅, ∅) f) as H.
  rewrite Hempty, lookup_empty, bool_decide_eq_true_2 in H; done.
Qed.

(** With a required field missing, [validate] stops after the loop: it
    returns what the loop collected and touches nothing. *)
Lemma validate_dirty e d st :
  (exists f, f ∈ required_fields /\ missing d f) ->
  validate e d st =
  (Ok ((foldl (validate_field d) (∅, ∅) required_fields).1,
       (foldl (validate_field d) (∅, ∅) required_fields).2, None), st).
Proof.
  intros Hd. apply validate_fold_dirty in Hd. unfold validate.
  destruct (foldl (validate_field d) (∅, ∅) required_fields) as [errs summ].
  cbn [fst snd] in *. by rewrite bool_decide_eq_false_2.
Qed.

(** With every required field present, [validate] is the reCAPTCHA check. *)
Lemma validate_clean e d st :
  (forall f, f ∈ required_fields -> ~ missing d f) ->
  let expected_action :=
    config_get e "ckanext.contact.recaptcha_v3_action" VNone in
  let token := from_option VStr VNone (d !! "g-recaptcha-response") in
  let st1 := State (ticks st) (events st ++ [ECheckRecaptcha token expected_action]) in
  validate e d st =
  match check_recaptcha e token expected_action with
  | Ok _ => (Ok (∅, ∅, None), st1)
  | Raise (RecaptchaError reason) =>
      (Ok (∅, ∅, Some (gettext e recaptcha_failed_msg)),
       State (ticks st)
             (events st1 ++
              [ELogInfo ("Recaptcha failed due to " +:+ dquote +:+ reason
                         +:+ dquote +:+ " : " +:+ py_str expected_action)]))
  | Raise ex => (Raise ex, st1)
  end.
Proof.
  intros Hok. cbv zeta. unfold validate. rewrite (validate_fold_clean d Hok).
  rewrite bool_decide_eq_true_2 by done.
  unfold try_except, bind, emit, lift, ret. cbn.
  destruct (check_recaptcha e _ _) as [[]|[]]; reflexivity.
Qed.

(** C1. A submission in which 'email', 'name' or 'content' is absent or
    empty makes [submit] return an outcome whose [errors] holds exactly the
    missing required fields, each with ['Missing Value'], whose
    [recaptcha_error] is [None] and whose [success] is [False]; the state
    is returned as it was received, so neither the reCAPTCHA check nor the
    mailer (nor any other collaborator) has been called. *)
Theorem submit_missing_fields e d st :
  (exists f, f ∈ required_fields /\ missing d f) ->
  exists o,
    submit e d st = (Ok o, st) /\
    (forall f, errors o !! f =
               if bool_decide (f ∈ required_fields /\ missing d f)
               then Some ["Missing Value"] else None) /\
    recaptcha_error o = None /\
    success o = false /\
    data o = d.
Proof.
  intros Hd. unfold submit.
  rewrite (bind_ok _ _ _ _ _ (validate_dirty e d st Hd)).
  pose proof (validate_fold_dirty d Hd) as Hne.
  pose proof (validate_fold_errors d required_fields (∅, ∅)) as Hlook.
  destruct (foldl (validate_field d) (∅, ∅) required_fields) as [errs summ].
  cbn [fst snd] in *.
  rewrite (bool_decide_eq_false_2 (errs = ∅)) by done.
  cbn. eexists. split; [reflexivity|]. cbn.
  split; [|done].
  intros f. rewrite Hlook. destruct (bool_decide _); [done|apply lookup_empty].
Qed.

Lemma submit_missing_fields_witness :
  exists o,
    submit site form_no_name st0 = (Ok o, st0) /\
    (forall f, errors o !! f =
               if bool_decide (f ∈ required_fields /\ missing form_no_name f)
               then Some ["Missing Value"] else None) /\
    recaptcha_error o = None /\
    success o = false /\
    data o = form_no_name.
Proof.
  apply (submit_missing_fields site form_no_name st0).
  exists "name". split; [|right; reflexivity].
  apply (bool_decide_unpack _). vm_compute. reflexivity.
Defined.

(** C4. With the three required fields present, a [RecaptchaError] raised
    by the reCAPTCHA collaborator does not leave [validate]: it returns
    empty [errors] and [error_summary] and, as [recaptcha_error], the fixed
    message 'Recaptcha check failed, please try again.' passed through
    [toolkit._] (the message itself wherever the catalogue leaves it
    untranslated).  The returned triple does not depend on the reason the
    collaborator gave: the reason goes to the log only.  [submit] then
    reports failure without calling the mailer. *)
Theorem validate_recaptcha_failure e d st reason :
  (forall f, f ∈ required_fields -> ~ missing d f) ->
  check_recaptcha e (recaptcha_token d) (recaptcha_action e)
    = Raise (RecaptchaError reason) ->
  let st' :=
    State (ticks st)
          (events st ++
           [ECheckRecaptcha (recaptcha_token d) (recaptcha_action e);
            ELogInfo ("Recaptcha failed due to " +:+ dquote +:+ reason +:+ dquote
                      +:+ " : " +:+ py_str (recaptcha_action e))]) in
  let msg := gettext e "Recaptcha check failed, please try again." in
  validate e d st = (Ok (∅, ∅, Some msg), st') /\
  (gettext e recaptcha_failed_msg = recaptcha_failed_msg ->
   validate e d st =
   (Ok (∅, ∅, Some "Recaptcha check failed, please try again."), st')) /\
  submit e d st = (Ok (Outcome false d ∅ ∅ (Some msg)), st').
Proof.
  intros Hok Hfail st' msg.
  assert (Hv : validate e d st = (Ok (∅, ∅, Some msg), st')).
  { rewrite (validate_clean e d st Hok). cbv zeta.
    fold (recaptcha_token d) (recaptcha_action e). rewrite Hfail.
    subst st' msg. cbn [events ticks]. by rewrite <- app_assoc. }
  split; [exact Hv|]. split.
  - intros Hid. rewrite Hv. subst msg. fold recaptcha_failed_msg.
    by rewrite Hid.
  - unfold submit. rewrite (bind_ok _ _ _ _ _ Hv). reflexivity.
Qed.

Lemma form_ok_required : forall f, f ∈ required_fields -> ~ missing form_ok f.
Proof.
  intros f Hin. unfold required_fields in Hin.
  repeat (apply elem_of_cons in Hin as [->|Hin]);
    [| | |by apply elem_of_nil in Hin];
    intros [H|H]; vm_compute in H; discriminate.
Qed.

Lemma validate_recaptcha_failure_witness :
  let st' :=
    State 0
          [ECheckRecaptcha VNone VNone;
           ELogInfo ("Recaptcha failed due to " +:+ dquote
                     +:+ "timeout-or-duplicate" +:+ dquote +:+ " : None")] in
  validate site_captcha_down form_ok st0
  = (Ok (∅, ∅, Some "Recaptcha check failed, please try again."), st') /\
  submit site_captcha_down form_ok st0
  = (Ok (Outcome false form_ok ∅ ∅
                 (Some "Recaptcha check failed, please try again.")), st').
Proof.
  pose proof (validate_recaptcha_failure site_captcha_down form_ok st0
                "timeout-or-duplicate" form_ok_required eq_refl)
    as (H1 & _ & H3).
  split; [exact H1 | exact H3].
Defined.

(** ** The subject line *)

Lemma append_empty_r (s : string) : s +:+ "" = s.
Proof.
  induction s as [|c s IH]; [reflexivity|].
  change (String c (s +:+ "") = String c s). by rewrite IH.
Qed.

(** [build_subject] in closed form. *)
Lemma build_subject_run e fv ct sd td st :
  build_subject e fv ct sd td st =
  match timestamp_flag e td with
  | Raise ex => (Raise ex, st)
  | Ok flag =>
      let subject :=
        if bool_decide (fv = "contact")
        then subject_base e fv sd +:+ " : " +:+ ct
        else subject_base e fv sd in
      if flag
      then (Ok (subject +:+ " [" +:+ strftime_utc (clock e (ticks st)) +:+ "]"),
            State (S (ticks st)) (events st))
      else (Ok subject, st)
  end.
Proof.
  unfold build_subject, timestamp_flag, subject_base, subject_key, bind, lift.
  destruct (asbool e _) as [[|]|ex]; reflexivity.
Qed.

(** C6. [build_subject] appends ' : <contact_type>' exactly when
    [form_variant] is 'contact' (so not for 'suggest_dataset'), and appends
    the bracketed UTC timestamp exactly when the 'add timestamp' flag, read
    from the configuration with [timestamp_default] as its default, is
    true.  When [asbool] rejects the configured flag its error is the
    result. *)
Theorem build_subject_suffixes e fv ct sd td st :
  match timestamp_flag e td with
  | Raise ex => build_subject e fv ct sd td st = (Raise ex, st)
  | Ok flag =>
      exists type_suffix time_suffix,
        build_subject e fv ct sd td st =
          (Ok ((subject_base e fv sd +:+ type_suffix) +:+ time_suffix),
           if flag then State (S (ticks st)) (events st) else st) /\
        (fv = "contact" -> type_suffix = " : " +:+ ct) /\
        (fv <> "contact" -> type_suffix = "") /\
        (flag = true ->
         time_suffix = " [" +:+ strftime_utc (clock e (ticks st)) +:+ "]") /\
        (flag = false -> time_suffix = "")
  end.
Proof.
  rewrite build_subject_run. destruct (timestamp_flag e td) as [flag|ex]; [|done].
  exists (if bool_decide (fv = "contact") then " : " +:+ ct else ""),
         (if flag then " [" +:+ strftime_utc (clock e (ticks st)) +:+ "]" else "").
  split.
  - cbv zeta. case_bool_decide; destruct flag;
      repeat rewrite append_empty_r; reflexivity.
  - repeat split.
    + intros ->. by rewrite bool_decide_eq_true_2.
    + intros Hne. by rewrite bool_decide_eq_false_2.
    + by intros ->.
    + by intros ->.
Qed.

(** The subject lines of the two form variants, with and without the
    timestamp. *)
Example build_subject_contact_issue :
  build_subject site "contact" "Issue" subject_default0 timestamp_default0 st0
  = (Ok "Contact from visitor : Issue", st0).
Proof. reflexivity. Qed.

Example build_subject_suggest_dataset :
  build_subject site "suggest_dataset" "Both" subject_default0
                timestamp_default0 st0
  = (Ok "Contact from visitor", st0).
Proof. reflexivity. Qed.

Example build_subject_timestamp :
  build_subject site "suggest_dataset" "Both" subject_default0 (VStr " Yes ") st0
  = (Ok "Contact from visitor [2024-03-09 14:05:00 UTC]", State 1 []).
Proof. vm_compute. reflexivity. Qed.

(** C9. With the 'add timestamp' flag false, [build_subject] returns the
    same subject string whenever it is called with the same arguments and
    the same configuration (settings, catalogue, [asbool]), whatever the
    time and whatever has happened before; it does not read the clock. *)
Theorem build_subject_deterministic e1 e2 fv ct sd td st1 st2 :
  config e1 = config e2 ->
  gettext e1 = gettext e2 ->
  asbool e1 = asbool e2 ->
  timestamp_flag e1 td = Ok false ->
  exists s,
    build_subject e1 fv ct sd td st1 = (Ok s, st1) /\
    build_subject e2 fv ct sd td st2 = (Ok s, st2).
Proof.
  intros Hc Hg Ha Hflag.
  assert (Hflag2 : timestamp_flag e2 td = Ok false).
  { unfold timestamp_flag, config_get in *. by rewrite <- Hc, <- Ha. }
  rewrite !build_subject_run, Hflag, Hflag2. cbv zeta.
  unfold subject_base. rewrite <- Hc, <- Hg. eauto.
Qed.

Lemma build_subject_deterministic_witness :
  exists s,
    build_subject site "contact" "Issue" subject_default0 timestamp_default0 st0
      = (Ok s, st0) /\
    build_subject site_later "contact" "Issue" subject_default0
                  timestamp_default0 (State 7 [ELogInfo "earlier"])
      = (Ok s, State 7 [ELogInfo "earlier"]).
Proof.
  apply (build_subject_deterministic site site_later); reflexivity.
Defined.

(** C7, as stated, fails: a subject configured under 'contact.contact.subject'
    (or under 'ckanext.contact.contact.subject') is not what [build_subject]
    returns for the variant 'contact'. *)
Lemma contract_subject_key_counterexample :
  config site_contract_keys !! contract_subject_key "contact" = Some "Feedback" /\
  config site_contract_keys !! prefixed_contract_subject_key "contact"
    = Some "Feedback" /\
  build_subject site_contract_keys "contact" "Question" subject_default0
                timestamp_default0 st0
    = (Ok "Contact from visitor : Question", st0) /\
  ~ reads_subject_from contract_subject_key /\
  ~ reads_subject_from prefixed_contract_subject_key.
Proof.
  split; [reflexivity|]. split; [reflexivity|]. split; [reflexivity|].
  split; intros H;
    specialize (H site_contract_keys "contact" "Question" subject_default0
                  timestamp_default0 st0);
    vm_compute in H; discriminate H.
Qed.

(** C7, amended. For every form variant [v], [build_subject] reads the
    subject under the configuration key 'ckanext.<v>.subject'
    ('ckanext.contact.subject' for the contact form), and falls back to
    [subject_default], passed through [toolkit._], when the key is unset. *)
Theorem build_subject_config_key :
  reads_subject_from (fun v => "ckanext." +:+ v +:+ ".subject").
Proof.
  intros e v ct sd td st. rewrite build_subject_run.
  unfold subject_base, subject_key. reflexivity.
Qed.

(** ** Normalisation of the submission *)

Lemma field_or_ext d1 d2 k dflt :
  d1 !! k = d2 !! k -> field_or d1 k dflt = field_or d2 k dflt.
Proof. unfold field_or. by intros ->. Qed.

Lemma absent_or_empty_ext d1 d2 k :
  d1 !! k = d2 !! k -> absent_or_empty d1 k = absent_or_empty d2 k.
Proof. unfold absent_or_empty. by intros ->. Qed.

Lemma field_or_present d k dflt :
  absent_or_empty d k = false -> d !! k = Some (field_or d k dflt).
Proof.
  unfold absent_or_empty, field_or. destruct (d !! k) as [v|]; [|done].
  by intros ->.
Qed.

Lemma field_or_absent d k dflt :
  absent_or_empty d k = true -> field_or d k dflt = dflt.
Proof.
  unfold absent_or_empty, field_or. destruct (d !! k) as [v|]; [|done].
  by intros ->.
Qed.

Lemma lookup_setdefault d k dflt :
  (if absent_or_empty d k then <[k := dflt]> d else d) !! k
  = Some (field_or d k dflt).
Proof.
  destruct (absent_or_empty d k) eqn:Ha.
  - by rewrite lookup_insert_eq, field_or_absent.
  - by apply field_or_present.
Qed.

Lemma lookup_cond_insert_ne (b : bool) k v (d : gmap string string) k' :
  k <> k' -> (if b then <[k := v]> d else d) !! k' = d !! k'.
Proof. intros Hne. destruct b; [by rewrite lookup_insert_ne|done]. Qed.

(** Lines 95-97 in closed form. *)
Lemma set_default_form_variant_run d st :
  set_default_form_variant d st =
  match d !! "form_variant" with
  | Some fv =>
      (Ok (if bool_decide (fv = "") then <["form_variant" := "contact"]> d else d),
       st)
  | None => (Raise (KeyError "form_variant"), st)
  end.
Proof.
  unfold set_default_form_variant, bind, getitem.
  destruct (d !! "form_variant"); reflexivity.
Qed.

Lemma set_default_form_variant_inv d st d1 st' :
  set_default_form_variant d st = (Ok d1, st') ->
  st' = st /\
  exists fv, d !! "form_variant" = Some fv /\
             d1 !! "form_variant" = Some (variant_of fv) /\
             forall k, k <> "form_variant" -> d1 !! k = d !! k.
Proof.
  rewrite set_default_form_variant_run.
  destruct (d !! "form_variant") as [fv|] eqn:Hfv; [|discriminate].
  intros [= <- <-]. split; [done|]. exists fv. split; [done|].
  unfold variant_of. split.
  - case_bool_decide; [by rewrite lookup_insert_eq|done].
  - intros k Hk. by apply lookup_cond_insert_ne.
Qed.

Lemma body_head_inv d st bp st' :
  body_head d st = (Ok bp, st') ->
  st' = st /\
  exists content name email,
    d !! "content" = Some content /\ d !! "name" = Some name /\
    d !! "email" = Some email /\ bp = sender_lines content name email.
Proof.
  unfold body_head, bind, getitem, ret, raise.
  destruct (d !! "content") as [c|]; [|discriminate].
  destruct (d !! "name") as [n|]; [|discriminate].
  destruct (d !! "email") as [m|]; [|discriminate].
  intros [= <- <-]. split; [done|]. by exists c, n, m.
Qed.

Lemma add_dataset_url_spec d bp :
  (add_dataset_url d bp).1 !! "pkg-url" = Some (field_or d "pkg-url" "") /\
  (forall k, k <> "pkg-url" -> (add_dataset_url d bp).1 !! k = d !! k) /\
  (add_dataset_url d bp).2 = bp ++ dataset_url_lines d.
Proof.
  unfold add_dataset_url, dataset_url_lines, field_or, absent_or_empty.
  destruct (d !! "pkg-url") as [u|] eqn:Hu.
  - case_bool_decide as Hne.
    + rewrite (bool_decide_eq_false_2 (u = "")) by done. cbn. done.
    + subst u. cbn.
      rewrite lookup_insert_eq, app_nil_r.
      split; [done|]. split; [|done]. intros k Hk. by rewrite lookup_insert_ne.
  - cbn. rewrite lookup_insert_eq, app_nil_r.
    split; [done|]. split; [|done]. intros k Hk. by rewrite lookup_insert_ne.
Qed.

Lemma set_default_contact_type_spec d bp :
  (set_default_contact_type d bp).1 !! "contact_type"
    = Some (field_or d "contact_type" "Question") /\
  (forall k, k <> "contact_type" ->
             (set_default_contact_type d bp).1 !! k = d !! k) /\
  (set_default_contact_type d bp).2 = bp ++ contact_type_lines d.
Proof.
  unfold set_default_contact_type, contact_type_lines.
  pose proof (lookup_setdefault d "contact_type" "Question") as Hl.
  destruct (absent_or_empty d "contact_type"); cbn.
  - split; [done|]. split; [|done]. intros k Hk. by rewrite lookup_insert_ne.
  - by rewrite app_nil_r.
Qed.

Lemma absent_or_empty_cond_insert_ne (b : bool) k v (d : gmap string string) k' :
  k <> k' ->
  absent_or_empty (if b then <[k := v]> d else d) k' = absent_or_empty d k'.
Proof. intros. apply absent_or_empty_ext. by apply lookup_cond_insert_ne. Qed.

Lemma field_or_cond_insert_ne (b : bool) k v (d : gmap string string) k' dflt :
  k <> k' ->
  field_or (if b then <[k := v]> d else d) k' dflt = field_or d k' dflt.
Proof. intros. apply field_or_ext. by apply lookup_cond_insert_ne. Qed.

Lemma set_suggestion_fields_inv d bp st d' bp' st' :
  set_suggestion_fields d bp st = (Ok (d', bp'), st') ->
  st' = st /\
  exists fv, d !! "form_variant" = Some fv /\
    if bool_decide (fv = "suggest_dataset")
    then
      exists ct, d !! "contact_type" = Some ct /\
        d' !! "resource" = Some (field_or d "resource" "N/A") /\
        d' !! "maintainer" = Some (field_or d "maintainer" "N/A") /\
        d' !! "url" = Some (field_or d "url" "N/A") /\
        d' !! "contact_type"
          = Some (if bool_decide (ct = "Both") then "Data and Application" else ct) /\
        (forall k, k <> "resource" -> k <> "maintainer" -> k <> "url" ->
                   k <> "contact_type" -> d' !! k = d !! k) /\
        bp' = bp ++ suggestion_lines d
    else
      d' !! "resource" = Some "" /\ d' !! "maintainer" = Some "" /\
      d' !! "url" = Some "" /\
      (forall k, k <> "resource" -> k <> "maintainer" -> k <> "url" ->
                 d' !! k = d !! k) /\
      bp' = bp.
Proof.
  unfold set_suggestion_fields. intros H.
  apply bind_ok_inv in H as (fv & st1 & Hfv & H).
  apply getitem_ok_inv in Hfv as [Hfv ->].
  destruct (bool_decide (fv = "suggest_dataset")) eqn:Hs.
  - cbv zeta in H.
    apply bind_ok_inv in H as (ct & st1 & Hct & H).
    apply getitem_ok_inv in Hct as [Hct ->].
    rewrite !lookup_cond_insert_ne in Hct by done.
    apply bind_ok_inv in H as (r & st1 & Hr & H).
    apply getitem_ok_inv in Hr as [Hr ->].
    apply bind_ok_inv in H as (m & st1 & Hm & H).
    apply getitem_ok_inv in Hm as [Hm ->].
    apply bind_ok_inv in H as (u & st1 & Hu & H).
    apply getitem_ok_inv in Hu as [Hu ->].
    rewrite !lookup_cond_insert_ne, lookup_setdefault in Hr by done.
    rewrite !lookup_cond_insert_ne, lookup_setdefault in Hm by done.
    rewrite !lookup_cond_insert_ne, lookup_setdefault in Hu by done.
    rewrite !field_or_cond_insert_ne in Hm by done.
    rewrite !field_or_cond_insert_ne in Hu by done.
    injection Hr as <-. injection Hm as <-. injection Hu as <-.
    injection H as <- <- <-. split; [done|]. exists fv. split; [done|].
    rewrite Hs. exists ct. split; [done|].
    split; [by rewrite !lookup_cond_insert_ne, lookup_setdefault by done|].
    split.
    { rewrite !lookup_cond_insert_ne, lookup_setdefault by done.
      by rewrite !field_or_cond_insert_ne by done. }
    split.
    { rewrite !lookup_cond_insert_ne, lookup_setdefault by done.
      by rewrite !field_or_cond_insert_ne by done. }
    split.
    { destruct (bool_decide (ct = "Both")); [by rewrite lookup_insert_eq|].
      by rewrite !lookup_cond_insert_ne by done. }
    split.
    { intros k ? ? ? ?. by rewrite !lookup_cond_insert_ne by done. }
    unfold suggestion_lines. by rewrite <- !app_assoc.
  - cbv zeta in H. injection H as <- <- <-. split; [done|].
    exists fv. split; [done|]. rewrite Hs.
    split; [by rewrite !lookup_insert_ne, lookup_insert_eq by done|].
    split; [by rewrite !lookup_insert_ne, lookup_insert_eq by done|].
    split; [by rewrite lookup_insert_eq|].
    split; [|done].
    intros k ? ? ?. by rewrite !lookup_insert_ne by done.
Qed.

Lemma submit_normalize_inv d st d' bp st' :
  submit_normalize d st = (Ok (d', bp), st') ->
  st' = st /\
  exists fv0 content name email,
    d !! "form_variant" = Some fv0 /\ d !! "content" = Some content /\
    d !! "name" = Some name /\ d !! "email" = Some email /\
    let suggest := bool_decide (variant_of fv0 = "suggest_dataset") in
    let ct := field_or d "contact_type" "Question" in
    d' !! "form_variant" = Some (variant_of fv0) /\
    d' !! "pkg-url" = Some (field_or d "pkg-url" "") /\
    d' !! "contact_type"
      = Some (if suggest && bool_decide (ct = "Both")
              then "Data and Application" else ct) /\
    (forall k, k ∈ ["resource"; "maintainer"; "url"] ->
               d' !! k = Some (if suggest then field_or d k "N/A" else "")) /\
    (forall k, k ∉ touched_fields -> d' !! k = d !! k) /\
    bp = sender_lines content name email ++ dataset_url_lines d
         ++ contact_type_lines d ++ (if suggest then suggestion_lines d else []).
Proof.
  unfold submit_normalize. intros H.
  apply bind_ok_inv in H as (d1 & st1 & H1 & H).
  apply set_default_form_variant_inv in H1 as (-> & fv0 & Hfv0 & Hfv1 & Hd1).
  apply bind_ok_inv in H as (bp1 & st1 & H2 & H).
  apply body_head_inv in H2 as (-> & content & name & email & Hc & Hn & He & ->).
  rewrite Hd1 in Hc, Hn, He by done.
  pose proof (add_dataset_url_spec d1 (sender_lines content name email))
    as (Hu2 & Hd2 & Hbp2).
  destruct (add_dataset_url d1 _) as [d2 bp2]. cbn [fst snd] in *.
  pose proof (set_default_contact_type_spec d2 bp2) as (Hct3 & Hd3 & Hbp3).
  destruct (set_default_contact_type d2 bp2) as [d3 bp3]. cbn [fst snd] in *.
  apply set_suggestion_fields_inv in H as (-> & fv & Hfv & H).
  rewrite Hd3, Hd2, Hfv1 in Hfv by done. injection Hfv as <-.
  assert (Hsame : forall k, k <> "form_variant" -> k <> "pkg-url" ->
                            k <> "contact_type" -> d3 !! k = d !! k).
  { intros k ???. by rewrite Hd3, Hd2, Hd1. }
  assert (Hurl : field_or d1 "pkg-url" "" = field_or d "pkg-url" "").
  { apply field_or_ext. by apply Hd1. }
  assert (Hct : field_or d2 "contact_type" "Question"
                = field_or d "contact_type" "Question").
  { apply field_or_ext. by rewrite Hd2, Hd1. }
  assert (Hul : dataset_url_lines d1 = dataset_url_lines d).
  { unfold dataset_url_lines. rewrite Hurl.
    by rewrite (absent_or_empty_ext d1 d) by (by apply Hd1). }
  assert (Hcl : contact_type_lines d2 = contact_type_lines d).
  { unfold contact_type_lines.
    by rewrite (absent_or_empty_ext d2 d) by (by rewrite Hd2, Hd1). }
  assert (Hsl : suggestion_lines d3 = suggestion_lines d).
  { unfold suggestion_lines.
    by rewrite !(field_or_ext d3 d) by (by apply Hsame). }
  split; [done|]. exists fv0, content, name, email.
  repeat (split; [done|]). cbv zeta.
  destruct (bool_decide (variant_of fv0 = "suggest_dataset")).
  - destruct H as (ct & Hct3' & Hr & Hm & Hu & Hct4 & Hd4 & ->).
    rewrite Hct3 in Hct3'. injection Hct3' as <-. rewrite Hct in Hct4.
    split; [by rewrite Hd4, Hd3, Hd2 by done|].
    split; [by rewrite Hd4, Hd3, Hu2, Hurl by done|].
    split; [done|]. split.
    { intros k Hk. repeat (apply elem_of_cons in Hk as [->|Hk]);
        [| | |by apply elem_of_nil in Hk].
      - by rewrite Hr, (field_or_ext d3 d) by (by apply Hsame).
      - by rewrite Hm, (field_or_ext d3 d) by (by apply Hsame).
      - by rewrite Hu, (field_or_ext d3 d) by (by apply Hsame). }
    split.
    { intros k Hk. unfold touched_fields in Hk.
      repeat (apply not_elem_of_cons in Hk as [? Hk]).
      rewrite Hd4 by done. by apply Hsame. }
    by rewrite Hbp3, Hbp2, Hul, Hcl, Hsl, <- !app_assoc.
  - destruct H as (Hr & Hm & Hu & Hd4 & ->).
    split; [by rewrite Hd4, Hd3, Hd2 by done|].
    split; [by rewrite Hd4, Hd3, Hu2, Hurl by done|].
    split; [by rewrite Hd4, Hct3, Hct by done|]. split.
    { intros k Hk. repeat (apply elem_of_cons in Hk as [->|Hk]);
        [done|done|done|by apply elem_of_nil in Hk]. }
    split.
    { intros k Hk. unfold touched_fields in Hk.
      repeat (apply not_elem_of_cons in Hk as [? Hk]).
      rewrite Hd4 by done. by apply Hsame. }
    by rewrite Hbp3, Hbp2, Hul, Hcl, app_nil_r, <- !app_assoc.
Qed.

(** ** Composition of the message *)

Lemma now_ok_inv e st t st' :
  now e st = (Ok t, st') ->
  t = clock e (ticks st) /\ st' = State (S (ticks st)) (events st).
Proof. unfold now. by intros [= <- <-]. Qed.

Lemma emit_ok_inv ev st u st' :
  emit ev st = (Ok u, st') -> st' = State (ticks st) (events st ++ [ev]).
Proof. unfold emit. by intros [= <-]. Qed.

Lemma lift_ok_inv {A} (r : result A) st a st' :
  lift r st = (Ok a, st') -> r = Ok a /\ st' = st.
Proof. unfold lift. by intros [= <- <-]. Qed.

Lemma build_subject_events e fv ct sd td st r st' :
  build_subject e fv ct sd td st = (r, st') -> events st' = events st.
Proof.
  rewrite build_subject_run. destruct (timestamp_flag e td) as [[|]|ex];
    cbv zeta; by intros [= <- <-].
Qed.

Lemma submit_mail_dict_inv e d bp st m st' :
  submit_mail_dict e d bp st = (Ok m, st') ->
  recipient_email m = default_recipient e /\
  recipient_name m = default_recipient_name e /\
  body m = String.concat nl bp /\
  (exists email, d !! "email" = Some email /\
                 headers m = {["Reply-to" := VStr email]}) /\
  exists template args, events st' = events st ++ [ERenderTemplate template args].
Proof.
  unfold submit_mail_dict. intros H.
  repeat match type of H with
  | bind (getitem _ _) _ _ = _ =>
      let v := fresh "v" in let s := fresh "s" in let Hv := fresh "Hv" in
      apply bind_ok_inv in H as (v & s & Hv & H);
      apply getitem_ok_inv in Hv as [Hv ->]
  | bind (build_subject _ _ _ _ _) _ _ = _ =>
      let v := fresh "subj" in let s := fresh "s" in let Hv := fresh "Hs" in
      apply bind_ok_inv in H as (v & s & Hv & H);
      apply build_subject_events in Hv
  | bind (now _) _ _ = _ =>
      let v := fresh "t" in let s := fresh "s" in let Hv := fresh "Ht" in
      apply bind_ok_inv in H as (v & s & Hv & H);
      apply now_ok_inv in Hv as [-> ->]
  | bind (emit _) _ _ = _ =>
      let v := fresh "u" in let s := fresh "s" in let Hv := fresh "He" in
      apply bind_ok_inv in H as (v & s & Hv & H);
      apply emit_ok_inv in Hv as ->
  | bind (lift _) _ _ = _ =>
      let v := fresh "h" in let s := fresh "s" in let Hv := fresh "Hl" in
      apply bind_ok_inv in H as (v & s & Hv & H);
      apply lift_ok_inv in Hv as [Hv ->]
  end.
  injection H as <- <-. cbn.
  repeat (split; [done|]). split; [by eauto|].
  rewrite Hs0. cbn. rewrite Hs. eauto.
Qed.

Lemma sent_app evs1 evs2 : sent (evs1 ++ evs2) = sent evs1 ++ sent evs2.
Proof. unfold sent. apply flat_map_app. Qed.

Lemma submit_reroute_inv e m d st m' d' st' :
  submit_reroute e m d st = (Ok (m', d'), st') ->
  match dataset_contact e d with
  | Some v =>
      m' = MailDict v (recipient_name m) (subject m) (body m) (body_html m)
                    (<["cc" := recipient_email m]> (headers m))
  | None => m' = m
  end /\
  d' = match d !! "contact_dest" with
       | None => <["contact_dest" := "data-hub-support"]> d
       | Some _ => d
       end /\
  sent (events st') = sent (events st).
Proof.
  unfold submit_reroute, dataset_contact. intros H.
  apply bind_ok_inv in H as (dest & s & Hdest & H).
  apply getitem_ok_inv in Hdest as [Hdest ->].
  destruct (d !! "contact_dest") as [dest0|] eqn:Hd.
  - rewrite Hd in Hdest. injection Hdest as ->.
    unfold absent_or_empty in H.
    destruct (d !! "pkg-id") as [id|] eqn:Hid.
    + rewrite <- (negb_involutive (bool_decide (id <> ""))).
      replace (negb (bool_decide (id <> ""))) with (bool_decide (id = ""))
        by (by repeat case_bool_decide).
      destruct (bool_decide (dest <> _) && negb (bool_decide (id = ""))).
      * apply bind_ok_inv in H as (id' & s & Hid' & H).
        apply getitem_ok_inv in Hid' as [Hid' ->].
        rewrite Hid in Hid'. injection Hid' as <-.
        apply bind_ok_inv in H as (u & s & Hu & H).
        apply emit_ok_inv in Hu as ->.
        apply bind_ok_inv in H as (pkg & s & Hp & H).
        apply lift_ok_inv in Hp as [-> ->].
        apply bind_ok_inv in H as (v & s & Hv & H).
        unfold pkg_getitem in Hv, H.
        destruct (pkg !! "data_contact_email") as [v0|]; [|discriminate].
        injection Hv as <- <-.
        destruct (truthy v0).
        -- cbn in H. injection H as <- <- <-. cbn.
           by rewrite sent_app, app_nil_r.
        -- injection H as <- <- <-. cbn. by rewrite sent_app, app_nil_r.
      * by injection H as <- <- <-.
    + rewrite andb_false_r in H. by injection H as <- <- <-.
  - rewrite lookup_insert_eq in Hdest. injection Hdest as <-.
    rewrite bool_decide_eq_false_2 in H by (by intros ?).
    by injection H as <- <- <-.
Qed.

Lemma dataset_contact_ext e d1 d2 :
  d1 !! "contact_dest" = d2 !! "contact_dest" ->
  d1 !! "pkg-id" = d2 !! "pkg-id" ->
  dataset_contact e d1 = dataset_contact e d2.
Proof. unfold dataset_contact. by intros -> ->. Qed.

(** [submit_compose] by its three stages. *)
Lemma submit_compose_inv e d st m d' st' :
  submit_compose e d st = (Ok (m, d'), st') ->
  exists d1 bp m0 st1,
    submit_normalize d st = (Ok (d1, bp), st) /\
    submit_mail_dict e d1 bp st = (Ok m0, st1) /\
    submit_reroute e m0 d1 st1 = (Ok (m, d'), st').
Proof.
  unfold submit_compose. intros H.
  apply bind_ok_inv in H as ([d1 bp] & s & Hn & H).
  pose proof (submit_normalize_inv _ _ _ _ _ Hn) as [-> _].
  apply bind_ok_inv in H as (m0 & st1 & Hm & H).
  by exists d1, bp, m0, st1.
Qed.

Lemma submit_compose_sent e d st m d' st' :
  submit_compose e d st = (Ok (m, d'), st') ->
  sent (events st') = sent (events st).
Proof.
  intros H. apply submit_compose_inv in H as (d1 & bp & m0 & st1 & _ & Hm & Hr).
  apply submit_mail_dict_inv in Hm as (_ & _ & _ & _ & t & a & Hev).
  apply submit_reroute_inv in Hr as (_ & _ & ->).
  by rewrite Hev, sent_app, app_nil_r.
Qed.

Lemma submit_dispatch_sent ps n m d st m' d' st' :
  submit_dispatch ps n m d st = (Ok (m', d'), st') ->
  sent (events st') = sent (events st).
Proof.
  revert n m d st. induction ps as [|p ps IH]; intros n m d st; cbn [submit_dispatch].
  - by intros [= <- <- <-].
  - intros H. apply bind_ok_inv in H as (u & s & Hu & H).
    apply emit_ok_inv in Hu as ->.
    apply bind_ok_inv in H as ([m1 d1] & s & Hp & H).
    apply lift_ok_inv in Hp as [_ ->].
    apply IH in H as ->. cbn. by rewrite sent_app, app_nil_r.
Qed.

Lemma validate_sent e d st r st' :
  validate e d st = (r, st') -> sent (events st') = sent (events st).
Proof.
  destruct (decide (Forall (fun f => ~ missing d f) required_fields)) as [Hok|Hd].
  - rewrite Forall_forall in Hok. rewrite (validate_clean e d st Hok). cbv zeta.
    destruct (check_recaptcha e _ _) as [[]|[]]; intros [= <- <-]; cbn;
      by rewrite ?sent_app, ?app_nil_r.
  - apply not_Forall_Exists in Hd; [|apply _]. apply Exists_exists in Hd.
    destruct Hd as (f & Hin & Hm). apply dec_stable in Hm.
    rewrite (validate_dirty e d st) by eauto. by intros [= <- <-].
Qed.

(** [submit] from its stages, once [validate] has passed the submission. *)
Lemma submit_run e d st st1 m d1 st2 m' d' st3 :
  validate e d st = (Ok (∅, ∅, None), st1) ->
  submit_compose e d st1 = (Ok (m, d1), st2) ->
  submit_dispatch (plugins e) 0 m d1 st2 = (Ok (m', d'), st3) ->
  let st4 := State (ticks st3) (events st3 ++ [EMailRecipient m']) in
  submit e d st =
  match mail_recipient e m' with
  | Ok _ => (Ok (Outcome true d' ∅ ∅ None), st4)
  | Raise (MailerException _) | Raise (SocketError _) =>
      (Ok (Outcome false d' ∅ ∅ None), st4)
  | Raise ex => (Raise ex, st4)
  end.
Proof.
  intros Hv Hc Hd. cbv zeta. unfold submit.
  rewrite (bind_ok _ _ _ _ _ Hv). cbn match.
  rewrite !bool_decide_eq_true_2 by done. cbn [andb].
  unfold bind at 1. unfold bind at 1. rewrite Hc. cbn match.
  unfold bind at 1. rewrite Hd. cbn match.
  unfold submit_send, try_except, bind, emit, lift, ret. cbn.
  destruct (mail_recipient e m') as [[]|[]]; reflexivity.
Qed.

Lemma variant_of_suggest fv :
  variant_of fv = "suggest_dataset" <-> fv = "suggest_dataset".
Proof. unfold variant_of. case_bool_decide; [by subst|done]. Qed.

(** X1 (C2). In the message [submit] composes (lines 137-175, before the
    plugins see it): when [contact_dest] is supplied and is not
    'data-hub-support', a non-empty 'pkg-id' is supplied and the dataset
    [package_show] returns for it has a non-empty [data_contact_email],
    that email is [recipient_email] and the recipient the configuration
    names sits in [headers['cc']]; in every other case in which a message
    is composed, [recipient_email] is the configured recipient and there is
    no 'cc' header. *)
Theorem compose_recipient e d st m d' st' :
  submit_compose e d st = (Ok (m, d'), st') ->
  (forall dest id pkg contact,
      d !! "contact_dest" = Some dest -> dest <> "data-hub-support" ->
      d !! "pkg-id" = Some id -> id <> "" ->
      package_show e id = Ok pkg ->
      pkg !! "data_contact_email" = Some contact -> truthy contact = true ->
      recipient_email m = contact /\
      headers m !! "cc" = Some (default_recipient e)) /\
  (dataset_contact e d = None ->
   recipient_email m = default_recipient e /\ headers m !! "cc" = None).
Proof.
  intros H. apply submit_compose_inv in H as (d1 & bp & m0 & st1 & Hn & Hm & Hr).
  apply submit_normalize_inv in Hn
    as (_ & fv0 & c & n & em & _ & _ & _ & Hem & _ & _ & _ & _ & Hsame & _).
  apply submit_mail_dict_inv in Hm as (Hrcp & _ & _ & (em' & _ & Hh) & _).
  apply submit_reroute_inv in Hr as (Hm' & _ & _).
  rewrite (dataset_contact_ext e d1 d) in Hm'
    by (apply Hsame; apply (bool_decide_unpack _); vm_compute; reflexivity).
  split.
  - intros dest id pkg contact Hdest Hne Hid Hid' Hpkg Hc Ht.
    unfold dataset_contact in Hm'. rewrite Hdest, Hid, Hpkg, Hc, Ht in Hm'.
    rewrite !bool_decide_eq_true_2 in Hm' by done. cbn in Hm'. subst m. cbn.
    by rewrite lookup_insert_eq, Hrcp.
  - intros Hnone. rewrite Hnone in Hm'. subst m.
    split; [done|]. rewrite Hh. by rewrite lookup_singleton_ne.
Qed.

Lemma compose_recipient_witness :
  let r := submit_compose site form_dataset st0 in
  r = (Ok (composed_mail r, composed_data r), r.2) /\
  recipient_email (composed_mail r) = VStr "owner@example.org" /\
  headers (composed_mail r) !! "cc" = Some (default_recipient site).
Proof.
  intros r.
  assert (H : r = (Ok (composed_mail r, composed_data r), r.2))
    by by_evaluation.
  split; [exact H|].
  assert (H1 : form_dataset !! "contact_dest" = Some "dataset-contact")
    by by_evaluation.
  assert (H2 : "dataset-contact" <> "data-hub-support") by discriminate.
  assert (H3 : form_dataset !! "pkg-id" = Some "ds1")
    by by_evaluation.
  assert (H4 : "ds1" <> "") by discriminate.
  assert (H5 : package_show site "ds1" =
               Ok (<["data_contact_email" := VStr "owner@example.org"]> ∅))
    by by_evaluation.
  assert (H6 : (<["data_contact_email" := VStr "owner@example.org"]> ∅
                : gmap string value) !! "data_contact_email" =
               Some (VStr "owner@example.org"))
    by by_evaluation.
  assert (H7 : truthy (VStr "owner@example.org") = true)
    by by_evaluation.
  exact (proj1 (compose_recipient site form_dataset st0 _ _ _ H)
           _ _ _ _ H1 H2 H3 H4 H5 H6 H7).
Defined.

(** X2 (C3). In the submission as [submit] normalises it before composing the
    message: for the variant 'suggest_dataset', each of 'resource',
    'maintainer' and 'url' that was absent or empty holds 'N/A' (the others
    keep their value) and a contact type 'Both' has become 'Data and
    Application'; for every other variant the three fields hold the empty
    string. *)
Theorem compose_optional_fields e d st m d' st' :
  submit_compose e d st = (Ok (m, d'), st') ->
  exists fv, d !! "form_variant" = Some fv /\
    (fv = "suggest_dataset" ->
     (forall k, k ∈ ["resource"; "maintainer"; "url"] ->
                (absent_or_empty d k = true -> d' !! k = Some "N/A") /\
                (absent_or_empty d k = false -> d' !! k = d !! k)) /\
     (d !! "contact_type" = Some "Both" ->
      d' !! "contact_type" = Some "Data and Application")) /\
    (fv <> "suggest_dataset" ->
     forall k, k ∈ ["resource"; "maintainer"; "url"] -> d' !! k = Some "").
Proof.
  intros H. apply submit_compose_inv in H as (d1 & bp & m0 & st1 & Hn & Hm & Hr).
  apply submit_normalize_inv in Hn
    as (_ & fv & c & n & em & Hfv & _ & _ & _ & _ & _ & Hct & Hopt & _ & _).
  apply submit_reroute_inv in Hr as (_ & -> & _).
  assert (Hd' : forall k, k <> "contact_dest" ->
            (match d1 !! "contact_dest" with
             | Some _ => d1
             | None => <["contact_dest" := "data-hub-support"]> d1
             end) !! k = d1 !! k).
  { intros k Hk. destruct (d1 !! "contact_dest"); [done|].
    by rewrite lookup_insert_ne. }
  exists fv. split; [done|]. split.
  - intros ->. rewrite bool_decide_eq_true_2 in Hct, Hopt by done. split.
    + intros k Hk. rewrite Hd'
        by (intros ->; repeat (apply elem_of_cons in Hk as [Hk|Hk]; [done|]);
            by apply elem_of_nil in Hk).
      rewrite (Hopt k Hk). split; intros Ha.
      * by rewrite field_or_absent.
      * by rewrite <- field_or_present.
    + intros Hboth. rewrite Hd' by done. rewrite Hct.
      unfold field_or. by rewrite Hboth.
  - intros Hne k Hk. rewrite Hd'
      by (intros ->; repeat (apply elem_of_cons in Hk as [Hk|Hk]; [done|]);
          by apply elem_of_nil in Hk).
    rewrite (Hopt k Hk). rewrite bool_decide_eq_false_2; [done|].
    by rewrite variant_of_suggest.
Qed.

Lemma compose_optional_fields_witness :
  let r := submit_compose site form_suggestion st0 in
  r = (Ok (composed_mail r, composed_data r), r.2) /\
  composed_data r !! "resource" = form_suggestion !! "resource" /\
  composed_data r !! "maintainer" = Some "N/A" /\
  composed_data r !! "url" = Some "N/A" /\
  composed_data r !! "contact_type" = Some "Data and Application".
Proof.
  intros r.
  assert (H : r = (Ok (composed_mail r, composed_data r), r.2))
    by by_evaluation.
  split; [exact H|].
  destruct (compose_optional_fields site form_suggestion st0 _ _ _ H)
    as (fv & Hfv & Hs & _).
  assert (Hfv' : form_suggestion !! "form_variant" = Some "suggest_dataset")
    by by_evaluation.
  rewrite Hfv' in Hfv. injection Hfv as <-. destruct (Hs eq_refl) as [Hopt Hct].
  assert (Hr : "resource" ∈ ["resource"; "maintainer"; "url"])
    by (apply (bool_decide_unpack _); vm_compute; reflexivity).
  assert (Hm : "maintainer" ∈ ["resource"; "maintainer"; "url"])
    by (apply (bool_decide_unpack _); vm_compute; reflexivity).
  assert (Hu : "url" ∈ ["resource"; "maintainer"; "url"])
    by (apply (bool_decide_unpack _); vm_compute; reflexivity).
  split; [|split; [|split]].
  - apply (proj2 (Hopt "resource" Hr)). vm_compute. reflexivity.
  - apply (proj1 (Hopt "maintainer" Hm)). vm_compute. reflexivity.
  - apply (proj1 (Hopt "url" Hu)). vm_compute. reflexivity.
  - apply Hct. vm_compute. reflexivity.
Defined.

(** ** Delivery *)

(** X3 (C5). Once a submission has passed [validate], its message has been
    composed and every plugin has returned, a [mailer.MailerException] or a
    [socket.error] raised by [mailer.mail_recipient] does not leave
    [submit]: it returns the outcome with [success] False, empty [errors]
    and [error_summary] and no [recaptcha_error], carrying the submission as
    the plugins left it.  The mailer has been called once, with the message
    the plugins left, and is not called again. *)
Theorem submit_delivery_failure e d st st1 m d1 st2 m' d' st3 ex :
  validate e d st = (Ok (∅, ∅, None), st1) ->
  submit_compose e d st1 = (Ok (m, d1), st2) ->
  submit_dispatch (plugins e) 0 m d1 st2 = (Ok (m', d'), st3) ->
  mail_recipient e m' = Raise ex ->
  (exists msg, ex = MailerException msg \/ ex = SocketError msg) ->
  exists st',
    submit e d st = (Ok (Outcome false d' ∅ ∅ None), st') /\
    sent (events st') = sent (events st) ++ [m'].
Proof.
  intros Hv Hc Hd Hm (msg & Hex).
  pose proof (submit_run e d st st1 m d1 st2 m' d' st3 Hv Hc Hd) as Hrun.
  cbv zeta in Hrun. rewrite Hm in Hrun.
  exists (State (ticks st3) (events st3 ++ [EMailRecipient m'])). split.
  - by destruct Hex as [-> | ->].
  - cbn [events]. rewrite sent_app.
    apply validate_sent in Hv. apply submit_compose_sent in Hc.
    apply submit_dispatch_sent in Hd. by rewrite Hd, Hc, Hv.
Qed.

Lemma submit_delivery_failure_witness :
  let st1 := (validate site_mail_down form_ok st0).2 in
  let r := submit_compose site_mail_down form_ok st1 in
  exists st',
    submit site_mail_down form_ok st0
      = (Ok (Outcome false (composed_data r) ∅ ∅ None), st') /\
    sent (events st') = sent (events st0) ++ [composed_mail r].
Proof.
  intros st1 r.
  assert (Hv : validate site_mail_down form_ok st0 = (Ok (∅, ∅, None), st1))
    by by_evaluation.
  assert (Hc : r = (Ok (composed_mail r, composed_data r), r.2))
    by by_evaluation.
  assert (Hd : submit_dispatch (plugins site_mail_down) 0 (composed_mail r)
                 (composed_data r) r.2
               = (Ok (composed_mail r, composed_data r), r.2))
    by by_evaluation.
  assert (Hm : mail_recipient site_mail_down (composed_mail r)
               = Raise (SocketError "Connection refused"))
    by by_evaluation.
  apply (submit_delivery_failure _ _ _ _ _ _ _ _ _ _ _ Hv Hc Hd Hm).
  exists "Connection refused". right. reflexivity.
Defined.

(** ** The composer in closed form *)

(** Lines 95-135 raise nothing once the variant and the required fields are
    there. *)
Lemma submit_normalize_run d st fv c n em :
  d !! "form_variant" = Some fv -> d !! "content" = Some c ->
  d !! "name" = Some n -> d !! "email" = Some em ->
  exists d' bp, submit_normalize d st = (Ok (d', bp), st).
Proof.
  intros Hfv Hc Hn He. unfold submit_normalize.
  unfold bind at 1. rewrite set_default_form_variant_run, Hfv.
  set (d1 := if bool_decide (fv = "") then _ else d).
  assert (H1 : forall k, "form_variant" <> k -> d1 !! k = d !! k)
    by (intros; by apply lookup_cond_insert_ne).
  assert (Hfv1 : exists v, d1 !! "form_variant" = Some v).
  { subst d1. case_bool_decide; [rewrite lookup_insert_eq|]; eauto. }
  destruct Hfv1 as [v Hfv1].
  unfold bind at 1. unfold body_head, bind, getitem.
  rewrite !H1, Hc, Hn, He by done. cbn [ret].
  pose proof (add_dataset_url_spec d1
                ([c +:+ nl] ++ ["Sent by:"] ++ ["  Name: " +:+ n]
                 ++ ["  Email: " +:+ em])) as (_ & Hd2 & _).
  cbn [app] in *.
  destruct (add_dataset_url d1 _) as [d2 bp2]. cbn [fst snd] in *.
  pose proof (set_default_contact_type_spec d2 bp2) as (Hct3 & Hd3 & _).
  destruct (set_default_contact_type d2 bp2) as [d3 bp3]. cbn [fst snd] in *.
  unfold set_suggestion_fields, bind, getitem.
  rewrite Hd3, Hd2, Hfv1 by done. cbn [ret].
  case_bool_decide; [|by eauto].
  rewrite !lookup_cond_insert_ne, Hct3 by done. cbn [ret].
  rewrite !lookup_cond_insert_ne, lookup_setdefault by done. cbn [ret].
  rewrite !lookup_cond_insert_ne, lookup_setdefault by done. cbn [ret].
  rewrite !lookup_cond_insert_ne, lookup_setdefault by done. cbn [ret].
  eauto.
Qed.

Lemma state_eta st : State (ticks st) (events st) = st.
Proof. by destruct st. Qed.

Lemma build_subject_flag e fv ct flag st :
  timestamp_flag e timestamp_default0 = Ok flag ->
  build_subject e fv ct subject_default0 timestamp_default0 st =
  (Ok (subject_line e fv ct flag (ticks st)),
   State (ticks st + clock_reads flag) (events st)).
Proof.
  intros Hflag. rewrite build_subject_run, Hflag. unfold subject_line.
  destruct flag; cbn [clock_reads]; cbv zeta.
  - by rewrite Nat.add_1_r.
  - by rewrite Nat.add_0_r, state_eta.
Qed.

Lemma submit_mail_dict_run e d bp st fv ct name email resource maintainer url
    pkg_url content flag :
  d !! "form_variant" = Some fv -> d !! "contact_type" = Some ct ->
  d !! "name" = Some name -> d !! "email" = Some email ->
  d !! "resource" = Some resource -> d !! "maintainer" = Some maintainer ->
  d !! "url" = Some url -> d !! "pkg-url" = Some pkg_url ->
  d !! "content" = Some content ->
  timestamp_flag e timestamp_default0 = Ok flag ->
  let k := clock_reads flag in
  let args :=
    TemplateArgs name email ct resource maintainer url pkg_url
                 (escape e content) (strftime_utc (clock e (ticks st + k)))
                 (config_get e "ckan.site_title" VNone) (home_url e)
                 (subject_line e fv ct flag (ticks st + k + 1)) in
  let st' := State (ticks st + k + 1 + k)
                   (events st ++ [ERenderTemplate (template_of fv) args]) in
  submit_mail_dict e d bp st =
  match render_template e (template_of fv) args with
  | Ok html =>
      (Ok (MailDict (default_recipient e) (default_recipient_name e)
                    (subject_line e fv ct flag (ticks st))
                    (String.concat nl bp) html {["Reply-to" := VStr email]}),
       st')
  | Raise ex => (Raise ex, st')
  end.
Proof.
  intros Hfv Hct Hn He Hr Hm Hu Hp Hc Hflag. cbv zeta.
  unfold submit_mail_dict.
  rewrite (bind_ok _ _ _ _ _ (getitem_some _ _ _ _ Hfv)).
  rewrite (bind_ok _ _ _ _ _ (getitem_some _ _ _ _ Hct)).
  rewrite (bind_ok _ _ _ _ _ (build_subject_flag _ _ _ _ _ Hflag)).
  rewrite (bind_ok _ _ _ _ _ (getitem_some _ _ _ _ Hfv)).
  rewrite (bind_ok _ _ _ _ _ (getitem_some _ _ _ _ Hn)).
  rewrite (bind_ok _ _ _ _ _ (getitem_some _ _ _ _ He)).
  rewrite (bind_ok _ _ _ _ _ (getitem_some _ _ _ _ Hct)).
  rewrite (bind_ok _ _ _ _ _ (getitem_some _ _ _ _ Hr)).
  rewrite (bind_ok _ _ _ _ _ (getitem_some _ _ _ _ Hm)).
  rewrite (bind_ok _ _ _ _ _ (getitem_some _ _ _ _ Hu)).
  rewrite (bind_ok _ _ _ _ _ (getitem_some _ _ _ _ Hp)).
  rewrite (bind_ok _ _ _ _ _ (getitem_some _ _ _ _ Hc)).
  unfold bind at 1. unfold now at 1. cbn [ticks events].
  rewrite (bind_ok _ _ _ _ _ (getitem_some _ _ _ _ Hfv)).
  rewrite (bind_ok _ _ _ _ _ (getitem_some _ _ _ _ Hct)).
  rewrite (bind_ok _ _ _ _ _ (build_subject_flag _ _ _ _ _ Hflag)).
  cbn [ticks events].
  unfold bind at 1. unfold emit at 1. cbn [ticks events].
  unfold bind at 1. unfold lift at 1.
  fold (template_of fv). fold (default_recipient e) (default_recipient_name e).
  replace (S (ticks st + clock_reads flag)) with (ticks st + clock_reads flag + 1)
    by apply Nat.add_1_r.
  destruct (render_template e _ _) as [html|ex]; [|reflexivity].
  by rewrite (bind_ok _ _ _ _ _ (getitem_some _ _ _ _ He)).
Qed.

Lemma submit_mail_dict_bad_flag e d bp st fv ct ex :
  d !! "form_variant" = Some fv -> d !! "contact_type" = Some ct ->
  timestamp_flag e timestamp_default0 = Raise ex ->
  submit_mail_dict e d bp st = (Raise ex, st).
Proof.
  intros Hfv Hct Hflag. unfold submit_mail_dict.
  rewrite (bind_ok _ _ _ _ _ (getitem_some _ _ _ _ Hfv)).
  rewrite (bind_ok _ _ _ _ _ (getitem_some _ _ _ _ Hct)).
  apply bind_raise. by rewrite build_subject_run, Hflag.
Qed.

(** Lines 168-175 in closed form. *)
Lemma submit_reroute_run e m d st :
  submit_reroute e m d st =
  let d' := match d !! "contact_dest" with
            | None => <["contact_dest" := "data-hub-support"]> d
            | Some _ => d
            end in
  match d !! "contact_dest", d !! "pkg-id" with
  | Some dest, Some id =>
      if bool_decide (dest <> "data-hub-support") && bool_decide (id <> "")
      then
        let st1 := State (ticks st) (events st ++ [EPackageShow id]) in
        match package_show e id with
        | Raise ex => (Raise ex, st1)
        | Ok pkg =>
            match pkg !! "data_contact_email" with
            | None => (Raise (KeyError "data_contact_email"), st1)
            | Some v =>
                if truthy v
                then (Ok (MailDict v (recipient_name m) (subject m) (body m)
                                   (body_html m)
                                   (<["cc" := recipient_email m]> (headers m)),
                          d'), st1)
                else (Ok (m, d'), st1)
            end
        end
      else (Ok (m, d'), st)
  | _, _ => (Ok (m, d'), st)
  end.
Proof.
  unfold submit_reroute. cbv zeta.
  destruct (d !! "contact_dest") as [dest|] eqn:Hd.
  - unfold bind at 1. rewrite (getitem_some _ _ _ _ Hd).
    unfold absent_or_empty.
    destruct (d !! "pkg-id") as [id|] eqn:Hid.
    + replace (negb (bool_decide (id = ""))) with (bool_decide (id <> ""))
        by (by repeat case_bool_decide).
      destruct (bool_decide (dest <> _) && bool_decide (id <> "")); [|done].
      unfold bind, getitem, emit, lift, pkg_getitem, ret, raise. rewrite Hid.
      cbn [ticks events].
      destruct (package_show e id) as [pkg|ex]; [|done].
      destruct (pkg !! "data_contact_email") as [v|]; [|done].
      by destruct (truthy v).
    + by rewrite andb_false_r.
  - unfold bind at 1. rewrite (getitem_some _ _ "data-hub-support")
      by (by rewrite lookup_insert_eq).
    by rewrite bool_decide_eq_false_2 by (by intros ?).
Qed.

(** ** Submissions that passed validation *)

Lemma present_lookup d f : ~ missing d f -> exists v, d !! f = Some v /\ v <> "".
Proof.
  unfold missing. intros H. destruct (d !! f) as [v|]; [|by destruct H; left].
  exists v. split; [done|]. intros ->. apply H. by right.
Qed.

Lemma required_present d :
  (forall f, f ∈ required_fields -> ~ missing d f) ->
  exists content name email,
    d !! "content" = Some content /\ d !! "name" = Some name /\
    d !! "email" = Some email.
Proof.
  intros H.
  destruct (present_lookup d "content") as (c & Hc & _);
    [apply H; by_evaluation|].
  destruct (present_lookup d "name") as (n & Hn & _);
    [apply H; by_evaluation|].
  destruct (present_lookup d "email") as (em & He & _);
    [apply H; by_evaluation|].
  by exists c, n, em.
Qed.

Lemma validate_passed e d st :
  (forall f, f ∈ required_fields -> ~ missing d f) ->
  check_recaptcha e (recaptcha_token d) (recaptcha_action e) = Ok tt ->
  validate e d st =
  (Ok (∅, ∅, None),
   State (ticks st)
         (events st ++ [ECheckRecaptcha (recaptcha_token d) (recaptcha_action e)])).
Proof.
  intros Hreq Hcap. rewrite (validate_clean e d st Hreq). cbv zeta.
  fold (recaptcha_token d) (recaptcha_action e). by rewrite Hcap.
Qed.

(** [submit] once [validate] has passed the submission, whatever the
    composer does. *)
Lemma submit_after_validate e d st st1 :
  validate e d st = (Ok (∅, ∅, None), st1) ->
  submit e d st =
  match submit_compose e d st1 with
  | (Ok (m, d1), st2) =>
      match submit_dispatch (plugins e) 0 m d1 st2 with
      | (Ok (m', d'), st3) =>
          let st4 := State (ticks st3) (events st3 ++ [EMailRecipient m']) in
          match mail_recipient e m' with
          | Ok _ => (Ok (Outcome true d' ∅ ∅ None), st4)
          | Raise (MailerException _) | Raise (SocketError _) =>
              (Ok (Outcome false d' ∅ ∅ None), st4)
          | Raise ex => (Raise ex, st4)
          end
      | (Raise ex, st3) => (Raise ex, st3)
      end
  | (Raise ex, st2) => (Raise ex, st2)
  end.
Proof.
  intros Hv.
  destruct (submit_compose e d st1) as [[[m d1]|ex] st2] eqn:Hc.
  - destruct (submit_dispatch (plugins e) 0 m d1 st2) as [[[m' d']|ex] st3] eqn:Hd.
    + apply (submit_run e d st st1 m d1 st2 m' d' st3 Hv Hc Hd).
    + unfold submit. rewrite (bind_ok _ _ _ _ _ Hv). cbn match.
      rewrite !bool_decide_eq_true_2 by done. cbn [andb].
      unfold bind at 1. unfold bind at 1. rewrite Hc. cbn match.
      unfold bind at 1. by rewrite Hd.
  - unfold submit. rewrite (bind_ok _ _ _ _ _ Hv). cbn match.
    rewrite !bool_decide_eq_true_2 by done. cbn [andb].
    unfold bind at 1. unfold bind at 1. by rewrite Hc.
Qed.

Lemma submit_compose_no_variant e d st :
  d !! "form_variant" = None ->
  submit_compose e d st = (Raise (KeyError "form_variant"), st).
Proof.
  intros Hfv. unfold submit_compose. apply bind_raise.
  unfold submit_normalize. apply bind_raise.
  by rewrite set_default_form_variant_run, Hfv.
Qed.

(** X5 (C10). For a submission whose required fields are present and whose
    reCAPTCHA check passes: when the key 'form_variant' is absent, [submit]
    raises [KeyError('form_variant')] right after the reCAPTCHA check (line
    96 indexes the dictionary), and returns no outcome; when the key is
    present and holds the empty string, lines 95-135 run through and leave
    'contact' under it. *)
Theorem submit_without_form_variant e d st :
  (forall f, f ∈ required_fields -> ~ missing d f) ->
  check_recaptcha e (recaptcha_token d) (recaptcha_action e) = Ok tt ->
  (d !! "form_variant" = None ->
   submit e d st =
   (Raise (KeyError "form_variant"),
    State (ticks st)
          (events st ++
           [ECheckRecaptcha (recaptcha_token d) (recaptcha_action e)]))) /\
  (d !! "form_variant" = Some "" ->
   exists d1 body_parts,
     submit_normalize d st = (Ok (d1, body_parts), st) /\
     d1 !! "form_variant" = Some "contact").
Proof.
  intros Hreq Hcap. split.
  - intros Hfv.
    rewrite (submit_after_validate _ _ _ _ (validate_passed e d st Hreq Hcap)).
    by rewrite submit_compose_no_variant.
  - intros Hfv. destruct (required_present d Hreq) as (c & n & em & Hc & Hn & He).
    destruct (submit_normalize_run d st "" c n em Hfv Hc Hn He) as (d1 & bp & Hrun).
    exists d1, bp. split; [done|].
    apply submit_normalize_inv in Hrun
      as (_ & fv0 & ? & ? & ? & Hfv0 & _ & _ & _ & Hfv1 & _).
    rewrite Hfv in Hfv0. by injection Hfv0 as <-.
Qed.

Lemma submit_without_form_variant_witness :
  submit site form_no_variant st0 =
  (Raise (KeyError "form_variant"), State 0 [ECheckRecaptcha VNone VNone]).
Proof.
  assert (Hreq : forall f, f ∈ required_fields -> ~ missing form_no_variant f).
  { apply Forall_forall. by_evaluation. }
  assert (Hcap : check_recaptcha site (recaptcha_token form_no_variant)
                   (recaptcha_action site) = Ok tt) by by_evaluation.
  assert (Hfv : form_no_variant !! "form_variant" = None) by by_evaluation.
  exact (proj1 (submit_without_form_variant site form_no_variant st0 Hreq Hcap)
           Hfv).
Defined.

(** X4 (C8). In every message [submit] composes, the plain-text body is
    the lines of the sender and of the dataset URL, then the line
    '  Contact Type: Question' exactly when the submission had no
    'contact_type' or an empty one (in which case the field is set to
    'Question'), then the lines of the dataset suggestion if the variant is
    'suggest_dataset'.  A contact type the submission supplies gets no line
    of its own. *)
Theorem compose_contact_type e d st m d' st' :
  submit_compose e d st = (Ok (m, d'), st') ->
  exists fv content name email,
    d !! "form_variant" = Some fv /\ d !! "content" = Some content /\
    d !! "name" = Some name /\ d !! "email" = Some email /\
    let before := sender_lines content name email ++ dataset_url_lines d in
    let after := if bool_decide (variant_of fv = "suggest_dataset")
                 then suggestion_lines d else [] in
    (absent_or_empty d "contact_type" = true ->
     d' !! "contact_type" = Some "Question" /\
     body m = String.concat nl
                (before ++ ["  Contact Type: Question"] ++ after)) /\
    (absent_or_empty d "contact_type" = false ->
     body m = String.concat nl (before ++ after)).
Proof.
  intros H. apply submit_compose_inv in H as (d1 & bp & m0 & st1 & Hn & Hm & Hr).
  apply submit_normalize_inv in Hn
    as (_ & fv & c & n & em & Hfv & Hc & Hnm & Hem & _ & _ & Hct & _ & _ & Hbp).
  cbv zeta in Hct, Hbp.
  apply submit_mail_dict_inv in Hm as (_ & _ & Hbody & _ & _).
  apply submit_reroute_inv in Hr as (Hm' & Hd' & _).
  assert (Hb : body m = body m0).
  { destruct (dataset_contact e d1); by subst m. }
  assert (Hd'ct : d' !! "contact_type" = d1 !! "contact_type").
  { subst d'. destruct (d1 !! "contact_dest"); [done|].
    by rewrite lookup_insert_ne. }
  exists fv, c, n, em. repeat (split; [done|]). cbv zeta.
  rewrite Hb, Hbody, Hbp, Hd'ct, Hct. unfold contact_type_lines. split.
  - intros Ha. rewrite Ha, (field_or_absent _ _ _ Ha).
    rewrite (bool_decide_eq_false_2 ("Question" = "Both")) by done.
    rewrite andb_false_r. split; [done|]. by rewrite <- !app_assoc.
  - intros Ha. rewrite Ha. by rewrite <- !app_assoc.
Qed.

Lemma compose_contact_type_witness :
  let r := submit_compose site form_ok st0 in
  let r' := submit_compose site form_typed st0 in
  composed_data r !! "contact_type" = Some "Question" /\
  body (composed_mail r) =
    String.concat nl ["Hi" +:+ nl; "Sent by:"; "  Name: A"; "  Email: a@b.com";
                      "  Contact Type: Question"] /\
  body (composed_mail r') =
    String.concat nl ["Hi" +:+ nl; "Sent by:"; "  Name: A"; "  Email: a@b.com"].
Proof.
  intros r r'.
  assert (H : r = (Ok (composed_mail r, composed_data r), r.2)) by by_evaluation.
  assert (H' : r' = (Ok (composed_mail r', composed_data r'), r'.2))
    by by_evaluation.
  destruct (compose_contact_type site form_ok st0 _ _ _ H)
    as (fv & c & n & em & Hfv & Hc & Hn & He & Habs & _).
  destruct (compose_contact_type site form_typed st0 _ _ _ H')
    as (fv' & c' & n' & em' & Hfv' & Hc' & Hn' & He' & _ & Hpres).
  assert (Ha : absent_or_empty form_ok "contact_type" = true) by by_evaluation.
  assert (Ha' : absent_or_empty form_typed "contact_type" = false)
    by by_evaluation.
  vm_compute in Hfv, Hc, Hn, He, Hfv', Hc', Hn', He'.
  injection Hfv as <-. injection Hc as <-. injection Hn as <-.
  injection He as <-. injection Hfv' as <-. injection Hc' as <-.
  injection Hn' as <-. injection He' as <-.
  destruct (Habs Ha) as [Hct Hbody]. specialize (Hpres Ha').
  split; [exact Hct|]. split.
  - rewrite Hbody. by_evaluation.
  - rewrite Hpres. by_evaluation.
Defined.

(** ** What [validate] reports *)

(** [validate] reports no field only when none is missing. *)
Lemma validate_no_errors_inv e d st summ rc st' :
  validate e d st = (Ok (∅, summ, rc), st') ->
  forall f, f ∈ required_fields -> ~ missing d f.
Proof.
  intros H f Hin Hm.
  assert (Hd : exists f, f ∈ required_fields /\ missing d f) by eauto.
  rewrite (validate_dirty e d st Hd) in H. injection H as He _ _ _.
  by apply (validate_fold_dirty d Hd).
Qed.

(** X6. Whatever [validate] returns: [errors] holds ['Missing Value'] and
    [error_summary] holds 'Missing value' at exactly the required fields
    that are absent or empty, and nothing anywhere else; when [errors] is
    not empty there is no [recaptcha_error] and the state is untouched (the
    reCAPTCHA check has not been made); a [recaptcha_error], when there is
    one, is the translated fixed message. *)
Theorem validate_reports e d st errs summ rc st' :
  validate e d st = (Ok (errs, summ, rc), st') ->
  (forall f, errs !! f =
             if bool_decide (f ∈ required_fields /\ missing d f)
             then Some ["Missing Value"] else None) /\
  (forall f, summ !! f =
             if bool_decide (f ∈ required_fields /\ missing d f)
             then Some "Missing value" else None) /\
  (errs <> ∅ -> rc = None /\ st' = st) /\
  (forall msg, rc = Some msg -> msg = gettext e recaptcha_failed_msg).
Proof.
  intros H.
  pose proof (validate_fold_errors d required_fields (∅, ∅)) as He.
  pose proof (validate_fold_summary d required_fields (∅, ∅)) as Hs.
  cbn [fst snd] in He, Hs. setoid_rewrite lookup_empty in He.
  setoid_rewrite lookup_empty in Hs.
  destruct (decide (Forall (fun f => ~ missing d f) required_fields)) as [Hok|Hd].
  - rewrite Forall_forall in Hok.
    rewrite (validate_fold_clean d Hok) in He, Hs. cbn [fst snd] in He, Hs.
    rewrite (validate_clean e d st Hok) in H. cbv zeta in H.
    destruct (check_recaptcha e _ _) as [[]|[]]; try discriminate;
      injection H as <- <- <- <-; (split; [done|]); (split; [done|]);
      (split; [done|]).
    + by intros msg [=].
    + by intros msg [= <-].
  - apply not_Forall_Exists in Hd; [|apply _]. apply Exists_exists in Hd.
    destruct Hd as (f & Hin & Hm). apply dec_stable in Hm.
    rewrite (validate_dirty e d st) in H by eauto.
    injection H as <- <- <- <-. by repeat split.
Qed.

Lemma validate_reports_witness :
  let r := validate site form_no_name st0 in
  r = (Ok ({["name" := ["Missing Value"]]}, {["name" := "Missing value"]}, None),
       st0) /\
  forall f, ({["name" := "Missing value"]} : gmap string string) !! f =
            if bool_decide (f ∈ required_fields /\ missing form_no_name f)
            then Some "Missing value" else None.
Proof.
  intros r.
  assert (H : r = (Ok ({["name" := ["Missing Value"]]},
                       {["name" := "Missing value"]}, None), st0))
    by by_evaluation.
  split; [exact H|].
  exact (proj1 (proj2 (validate_reports site form_no_name st0 _ _ _ _ H))).
Defined.

(** X7. [validate] returns [({}, {}, None)] exactly when the three
    required fields are present and non-empty and
    [recaptcha.check_recaptcha], called once with the value of
    'g-recaptcha-response' ([None] when absent) and the configured action,
    returns. *)
Theorem validate_passes_iff e d st st' :
  validate e d st = (Ok (∅, ∅, None), st') <->
  (forall f, f ∈ required_fields -> ~ missing d f) /\
  check_recaptcha e (recaptcha_token d) (recaptcha_action e) = Ok tt /\
  st' = State (ticks st)
              (events st ++
               [ECheckRecaptcha (recaptcha_token d) (recaptcha_action e)]).
Proof.
  split.
  - intros H.
    pose proof (validate_no_errors_inv _ _ _ _ _ _ H) as Hok.
    split; [done|]. rewrite (validate_clean e d st Hok) in H. cbv zeta in H.
    fold (recaptcha_token d) (recaptcha_action e) in H.
    destruct (check_recaptcha e _ _) as [[]|[]]; try discriminate.
    by injection H as <-.
  - intros (Hok & Hcap & ->). by apply validate_passed.
Qed.

(** X8. [validate] handles [RecaptchaError] only: any other exception
    raised by [recaptcha.check_recaptcha] leaves [validate], and then
    [submit], as it is, right after the check; no outcome is returned. *)
Theorem validate_unhandled_exception e d st ex :
  (forall f, f ∈ required_fields -> ~ missing d f) ->
  check_recaptcha e (recaptcha_token d) (recaptcha_action e) = Raise ex ->
  (forall reason, ex <> RecaptchaError reason) ->
  let st' := State (ticks st)
                   (events st ++
                    [ECheckRecaptcha (recaptcha_token d) (recaptcha_action e)]) in
  validate e d st = (Raise ex, st') /\ submit e d st = (Raise ex, st').
Proof.
  intros Hok Hcap Hne st'.
  assert (Hv : validate e d st = (Raise ex, st')).
  { rewrite (validate_clean e d st Hok). cbv zeta.
    fold (recaptcha_token d) (recaptcha_action e). rewrite Hcap.
    destruct ex; try reflexivity. by destruct (Hne reason). }
  split; [done|]. unfold submit. by apply bind_raise.
Qed.

Lemma validate_unhandled_exception_witness :
  submit site_captcha_unreachable form_ok st0 =
  (Raise (OtherError "ConnectionError"), State 0 [ECheckRecaptcha VNone VNone]).
Proof.
  assert (Hreq : forall f, f ∈ required_fields -> ~ missing form_ok f).
  { apply Forall_forall. by_evaluation. }
  assert (Hcap : check_recaptcha site_captcha_unreachable
                   (recaptcha_token form_ok)
                   (recaptcha_action site_captcha_unreachable)
                 = Raise (OtherError "ConnectionError")) by by_evaluation.
  assert (Hne : forall reason,
             OtherError "ConnectionError" <> RecaptchaError reason)
    by discriminate.
  exact (proj2 (validate_unhandled_exception site_captcha_unreachable form_ok
                  st0 _ Hreq Hcap Hne)).
Defined.

(** ** Calls of the mailer *)

Lemma silent_ret {A} (a : A) : silent (ret a).
Proof. by intros st. Qed.

Lemma silent_raise {A} ex : silent (@raise A ex).
Proof. by intros st. Qed.

Lemma silent_lift {A} (r : result A) : silent (lift r).
Proof. by intros st. Qed.

Lemma silent_bind {A B} (m : M A) (k : A -> M B) :
  silent m -> (forall a, silent (k a)) -> silent (bind m k).
Proof.
  intros Hm Hk st. unfold bind. specialize (Hm st).
  destruct (m st) as [[a|ex] s]; cbn [snd] in *; [|done].
  by rewrite Hk.
Qed.

Lemma silent_emit ev :
  (forall m, ev <> EMailRecipient m) -> silent (emit ev).
Proof.
  intros Hne st. cbn. rewrite sent_app.
  destruct ev; cbn; rewrite ?app_nil_r; try done. by destruct (Hne m).
Qed.

Lemma silent_getitem d k : silent (getitem d k).
Proof. intros st. unfold getitem. by destruct (d !! k). Qed.

Lemma silent_pkg_getitem pkg k : silent (pkg_getitem pkg k).
Proof. intros st. unfold pkg_getitem. by destruct (pkg !! k). Qed.

Lemma silent_now e : silent (now e).
Proof. by intros st. Qed.

Lemma silent_build_subject e fv ct sd td : silent (build_subject e fv ct sd td).
Proof.
  intros st. destruct (build_subject e fv ct sd td st) as [r st'] eqn:H.
  apply build_subject_events in H. cbn. by rewrite H.
Qed.

Lemma silent_validate e d : silent (validate e d).
Proof.
  intros st. destruct (validate e d st) as [r st'] eqn:H.
  by apply validate_sent in H.
Qed.

Ltac silent_step :=
  first
    [ apply silent_ret | apply silent_raise | apply silent_lift
    | apply silent_getitem | apply silent_pkg_getitem | apply silent_now
    | apply silent_build_subject
    | apply silent_emit; discriminate
    | apply silent_bind; [|intros ?]
    | match goal with
      | |- silent (if ?b then _ else _) => destruct b
      | |- silent (match ?x with _ => _ end) => destruct x
      end ].

Lemma silent_submit_normalize d : silent (submit_normalize d).
Proof.
  unfold submit_normalize, set_default_form_variant, body_head,
    set_suggestion_fields.
  repeat (cbv beta zeta; silent_step).
Qed.

Lemma silent_submit_mail_dict e d bp : silent (submit_mail_dict e d bp).
Proof. unfold submit_mail_dict. repeat (cbv beta zeta; silent_step). Qed.

Lemma silent_submit_reroute e m d : silent (submit_reroute e m d).
Proof. unfold submit_reroute. repeat (cbv beta zeta; silent_step). Qed.

Lemma silent_submit_compose e d : silent (submit_compose e d).
Proof.
  unfold submit_compose. apply silent_bind; [apply silent_submit_normalize|].
  intros [d1 bp]. apply silent_bind; [apply silent_submit_mail_dict|].
  intros m. apply silent_submit_reroute.
Qed.

Lemma silent_submit_dispatch ps n m d : silent (submit_dispatch ps n m d).
Proof.
  revert n m d. induction ps as [|p ps IH]; intros n m d; cbn [submit_dispatch].
  - apply silent_ret.
  - apply silent_bind; [apply silent_emit; discriminate|]. intros _.
    apply silent_bind; [apply silent_lift|]. intros [m' d']. apply IH.
Qed.

Lemma validate_summary_empty e d st summ rc st' :
  validate e d st = (Ok (∅, summ, rc), st') -> summ = ∅.
Proof.
  intros H. pose proof (validate_no_errors_inv _ _ _ _ _ _ H) as Hok.
  rewrite (validate_clean e d st Hok) in H. cbv zeta in H.
  destruct (check_recaptcha e _ _) as [[]|[]]; try discriminate;
    by injection H as <-.
Qed.

(** X9. [submit] calls [mailer.mail_recipient] at most once, whatever the
    submission, the collaborators and the way it ends (outcome or
    exception); and it calls it only after [validate] has returned
    [({}, {}, None)]. *)
Theorem submit_sends_at_most_once e d st :
  exists ms,
    sent (events (submit e d st).2) = sent (events st) ++ ms /\
    length ms <= 1 /\
    (ms <> [] -> (validate e d st).1 = Ok (∅, ∅, None)).
Proof.
  pose proof (silent_validate e d st) as Hv.
  destruct (validate e d st) as [[[[errs summ] rc]|ex] st1] eqn:Hval;
    cbn [snd] in Hv.
  - destruct (decide (errs = ∅ /\ rc = None)) as [[-> ->]|Hfail].
    + pose proof (validate_summary_empty _ _ _ _ _ _ Hval) as ->.
      rewrite (submit_after_validate e d st st1 Hval).
      pose proof (silent_submit_compose e d st1) as Hc.
      destruct (submit_compose e d st1) as [[[m d1]|ex] st2]; cbn [snd] in Hc.
      * pose proof (silent_submit_dispatch (plugins e) 0 m d1 st2) as Hd.
        destruct (submit_dispatch (plugins e) 0 m d1 st2)
          as [[[m' d']|ex] st3]; cbn [snd] in Hd.
        -- exists [m']. split; [|by split; [cbn; lia|]].
           cbv zeta.
           destruct (mail_recipient e m') as [[]|[]]; cbn [snd events];
             by rewrite sent_app, Hd, Hc, Hv.
        -- exists []. rewrite app_nil_r. cbn [snd].
           split; [by rewrite Hd, Hc, Hv|]. split; [cbn; lia|done].
      * exists []. rewrite app_nil_r. cbn [snd].
        split; [by rewrite Hc, Hv|]. split; [cbn; lia|done].
    + exists []. rewrite app_nil_r. split; [|split; [cbn; lia|done]].
      unfold submit. rewrite (bind_ok _ _ _ _ _ Hval). cbn match.
      replace (bool_decide (errs = ∅) && bool_decide (rc = None)) with false.
      * by cbn.
      * symmetry. apply andb_false_iff.
        destruct (decide (errs = ∅)) as [->|Hn];
          [right|left; by apply bool_decide_eq_false_2].
        apply bool_decide_eq_false_2. intros ->. by apply Hfail.
  - exists []. rewrite app_nil_r. split; [|split; [cbn; lia|done]].
    unfold submit. by rewrite (bind_raise _ _ _ _ _ Hval).
Qed.

Lemma silent_run {A} (m : M A) st r st' :
  silent m -> m st = (r, st') -> sent (events st') = sent (events st).
Proof. intros Hs H. specialize (Hs st). by rewrite H in Hs. Qed.

(** [submit] when [validate] reports a problem. *)
Lemma submit_rejected e d st errs summ rc st1 :
  validate e d st = (Ok (errs, summ, rc), st1) ->
  errs <> ∅ \/ rc <> None ->
  submit e d st = (Ok (Outcome false d errs summ rc), st1).
Proof.
  intros Hv Hbad. unfold submit. rewrite (bind_ok _ _ _ _ _ Hv). cbn match.
  destruct Hbad as [Hbad|Hbad].
  - rewrite (bool_decide_eq_false_2 (errs = ∅)) by done. cbn.
    by rewrite andb_false_r.
  - rewrite (bool_decide_eq_false_2 (rc = None)) by done.
    by rewrite andb_false_r.
Qed.

(** X10. What an outcome of [submit] means.  [success] True: no errors, no
    [recaptcha_error], and the mailer was called once and returned.
    [success] False: either [validate] reported a problem, in which case
    [data] is the submission as received and the mailer was not called, or
    validation passed and the one call of the mailer raised
    [MailerException] or [socket.error]. *)
Theorem submit_outcome e d st o st' :
  submit e d st = (Ok o, st') ->
  (success o = true ->
   errors o = ∅ /\ error_summary o = ∅ /\ recaptcha_error o = None /\
   exists m, sent (events st') = sent (events st) ++ [m] /\
             mail_recipient e m = Ok tt) /\
  (success o = false ->
   ((errors o <> ∅ \/ recaptcha_error o <> None) /\ data o = d /\
    sent (events st') = sent (events st)) \/
   (errors o = ∅ /\ recaptcha_error o = None /\
    exists m msg, sent (events st') = sent (events st) ++ [m] /\
                  (mail_recipient e m = Raise (MailerException msg) \/
                   mail_recipient e m = Raise (SocketError msg)))).
Proof.
  intros H.
  destruct (validate e d st) as [[[[errs summ] rc]|ex] st1] eqn:Hval;
    [|unfold submit in H; by rewrite (bind_raise _ _ _ _ _ Hval) in H].
  pose proof (silent_run _ _ _ _ (silent_validate e d) Hval) as Hv.
  destruct (decide (errs = ∅ /\ rc = None)) as [[-> ->]|Hfail].
  - pose proof (validate_summary_empty _ _ _ _ _ _ Hval) as ->.
    rewrite (submit_after_validate e d st st1 Hval) in H.
    destruct (submit_compose e d st1) as [[[m d1]|ex] st2] eqn:Hc;
      [|discriminate].
    pose proof (silent_run _ _ _ _ (silent_submit_compose e d) Hc) as Hcs.
    destruct (submit_dispatch (plugins e) 0 m d1 st2)
      as [[[m' d']|ex] st3] eqn:Hd; [|discriminate].
    pose proof (silent_run _ _ _ _ (silent_submit_dispatch _ _ _ _) Hd) as Hds.
    cbv zeta in H.
    assert (Hsent : sent (events st3 ++ [EMailRecipient m'])
                    = sent (events st) ++ [m'])
      by (by rewrite sent_app, Hds, Hcs, Hv).
    destruct (mail_recipient e m') as [[]|[]] eqn:Hm; try discriminate;
      injection H as <- <-; cbn [success errors error_summary recaptcha_error
                                   data events].
    + split; [|done]. intros _. repeat (split; [done|]). by exists m'.
    + split; [done|]. intros _. right. repeat (split; [done|]).
      exists m', msg. split; [done|]. by left.
    + split; [done|]. intros _. right. repeat (split; [done|]).
      exists m', msg. split; [done|]. by right.
  - assert (Hbad : errs <> ∅ \/ rc <> None).
    { destruct (decide (errs = ∅)) as [->|Hn]; [right|by left].
      intros ->. by apply Hfail. }
    rewrite (submit_rejected _ _ _ _ _ _ _ Hval Hbad) in H.
    injection H as <- <-. cbn. split; [done|]. intros _. by left.
Qed.

Lemma submit_outcome_witness :
  let r := submit site form_ok st0 in
  exists o m,
    r = (Ok o, r.2) /\ success o = true /\
    sent (events r.2) = sent (events st0) ++ [m] /\
    mail_recipient site m = Ok tt.
Proof.
  intros r.
  set (o := match r.1 with Ok o => o | Raise _ => Outcome false ∅ ∅ ∅ None end).
  assert (H : r = (Ok o, r.2)) by by_evaluation.
  assert (Hs : success o = true) by by_evaluation.
  destruct (proj1 (submit_outcome site form_ok st0 o r.2 H) Hs)
    as (_ & _ & _ & m & Hsent & Hm).
  exists o, m. split; [exact H|]. split; [exact Hs|].
  split; [exact Hsent|exact Hm].
Defined.

Lemma submit_normalize_closed d st fv content name email :
  d !! "form_variant" = Some fv -> d !! "content" = Some content ->
  d !! "name" = Some name -> d !! "email" = Some email ->
  submit_normalize d st =
  (Ok (normalized d fv, body_lines d fv content name email), st).
Proof.
  intros Hfv Hc Hn He.
  destruct (submit_normalize_run d st fv content name email Hfv Hc Hn He)
    as (d1 & bp & Hrun).
  rewrite Hrun.
  apply submit_normalize_inv in Hrun
    as (_ & fv0 & c & n & em & Hfv0 & Hc0 & Hn0 & He0 & Hfv1 & Hpu & Hct &
        Hopt & Hsame & ->).
  cbv zeta in *.
  rewrite Hfv in Hfv0. injection Hfv0 as <-. rewrite Hc in Hc0.
  injection Hc0 as <-. rewrite Hn in Hn0. injection Hn0 as <-.
  rewrite He in He0. injection He0 as <-.
  assert (Hd1 : d1 = normalized d fv); [|by rewrite Hd1].
  apply map_eq. intros k. unfold normalized.
  destruct (decide (k = "form_variant")) as [->|?];
    [by rewrite lookup_insert_eq|rewrite lookup_insert_ne by done].
  destruct (decide (k = "pkg-url")) as [->|?];
    [by rewrite lookup_insert_eq|rewrite lookup_insert_ne by done].
  destruct (decide (k = "contact_type")) as [->|?];
    [by rewrite lookup_insert_eq|rewrite lookup_insert_ne by done].
  destruct (decide (k = "resource")) as [->|?];
    [rewrite lookup_insert_eq; apply Hopt; by_evaluation
    |rewrite lookup_insert_ne by done].
  destruct (decide (k = "maintainer")) as [->|?];
    [rewrite lookup_insert_eq; apply Hopt; by_evaluation
    |rewrite lookup_insert_ne by done].
  destruct (decide (k = "url")) as [->|?];
    [rewrite lookup_insert_eq; apply Hopt; by_evaluation
    |rewrite lookup_insert_ne by done].
  apply Hsame. unfold touched_fields.
  repeat (apply not_elem_of_cons; split; [done|]). apply not_elem_of_nil.
Qed.

Lemma normalized_lookup_ne d fv k :
  k ∉ touched_fields -> normalized d fv !! k = d !! k.
Proof.
  unfold touched_fields. intros Hk.
  repeat (apply not_elem_of_cons in Hk as [? Hk]).
  unfold normalized. by rewrite !lookup_insert_ne by done.
Qed.

Ltac lookup_normalized :=
  unfold normalized;
  repeat first [rewrite lookup_insert_eq | rewrite lookup_insert_ne by done];
  done.

(** [submit_compose] on a submission that has its variant and its required
    fields, on a site whose timestamp flag reads as [flag]. *)
Lemma submit_compose_run e d st fv content name email flag :
  d !! "form_variant" = Some fv -> d !! "content" = Some content ->
  d !! "name" = Some name -> d !! "email" = Some email ->
  timestamp_flag e timestamp_default0 = Ok flag ->
  let template := template_of (variant_of fv) in
  let args := template_args_of e d fv content name email flag (ticks st) in
  let st1 := State (ticks st + clock_reads flag + 1 + clock_reads flag)
                   (events st ++ [ERenderTemplate template args]) in
  submit_compose e d st =
  match render_template e template args with
  | Ok html =>
      submit_reroute e (composed e d fv content name email flag (ticks st) html)
                     (normalized d fv) st1
  | Raise ex => (Raise ex, st1)
  end.
Proof.
  intros Hfv Hc Hn He Hflag. cbv zeta. unfold submit_compose.
  rewrite (bind_ok _ _ _ _ _
             (submit_normalize_closed d st fv content name email Hfv Hc Hn He)).
  cbn match. unfold bind at 1.
  rewrite (submit_mail_dict_run e (normalized d fv) _ st (variant_of fv)
             (contact_type_of d fv) name email (optional_of d fv "resource")
             (optional_of d fv "maintainer") (optional_of d fv "url")
             (field_or d "pkg-url" "") content flag);
    [|first [exact Hflag | lookup_normalized]..].
  cbv zeta. fold (template_args_of e d fv content name email flag (ticks st)).
  by destruct (render_template e _ _).
Qed.

(** ** The composed message *)

(** Every run of [submit_compose] that returns went through the template
    and ended in the rerouting step. *)
Lemma submit_compose_ok e d st m d' st' :
  submit_compose e d st = (Ok (m, d'), st') ->
  exists fv content name email flag html,
    d !! "form_variant" = Some fv /\ d !! "content" = Some content /\
    d !! "name" = Some name /\ d !! "email" = Some email /\
    timestamp_flag e timestamp_default0 = Ok flag /\
    let template := template_of (variant_of fv) in
    let args := template_args_of e d fv content name email flag (ticks st) in
    let st1 := State (ticks st + clock_reads flag + 1 + clock_reads flag)
                     (events st ++ [ERenderTemplate template args]) in
    render_template e template args = Ok html /\
    submit_reroute e (composed e d fv content name email flag (ticks st) html)
                   (normalized d fv) st1 = (Ok (m, d'), st').
Proof.
  intros H. pose proof H as H0.
  apply submit_compose_inv in H0 as (d1 & bp & m0 & st1 & Hn & Hm & _).
  apply submit_normalize_inv in Hn
    as (_ & fv & c & n & em & Hfv & Hc & Hnm & Hem & Hfv1 & _ & Hct & _).
  cbv zeta in Hct.
  destruct (timestamp_flag e timestamp_default0) as [flag|ex] eqn:Hflag.
  - exists fv, c, n, em, flag.
    rewrite (submit_compose_run e d st fv c n em flag) in H by done.
    cbv zeta in *.
    destruct (render_template e _ _) as [html|ex]; [|discriminate].
    by exists html.
  - by rewrite (submit_mail_dict_bad_flag e d1 bp st _ _ ex Hfv1 Hct Hflag) in Hm.
Qed.

(** The outcomes of the rerouting step that return. *)
Lemma submit_reroute_ok e m0 d1 st1 m d' st' :
  submit_reroute e m0 d1 st1 = (Ok (m, d'), st') ->
  ticks st' = ticks st1 /\
  (exists evs, events st' = events st1 ++ evs) /\
  (m = m0 \/
   m = MailDict (recipient_email m) (recipient_name m0) (subject m0) (body m0)
                (body_html m0) (<["cc" := recipient_email m0]> (headers m0))) /\
  d' = match d1 !! "contact_dest" with
       | None => <["contact_dest" := "data-hub-support"]> d1
       | Some _ => d1
       end.
Proof.
  rewrite submit_reroute_run. cbv zeta. intros H.
  repeat case_match; simplify_eq; cbn [ticks events recipient_email];
    (split; [done|]); (split; [|by auto]);
    first [by exists []; rewrite app_nil_r | by eexists].
Qed.

(** X11. In every run of [submit] that composes a message, the template
    rendered is 'emails/<variant>.html' (the variant being 'contact' for an
    empty 'form_variant'), with the normalised fields, the escaped content,
    the site title and the home URL; [body_html] is what it returned.  The
    subject of the message, the timestamp handed to the template and the
    subject handed to the template come from three successive clock reads
    when the subject timestamp is on (one read when it is off); with the
    timestamp off the two subjects are the same string. *)
Theorem compose_template e d st m d' st' :
  submit_compose e d st = (Ok (m, d'), st') ->
  exists fv content name email flag evs,
    d !! "form_variant" = Some fv /\ d !! "content" = Some content /\
    d !! "name" = Some name /\ d !! "email" = Some email /\
    timestamp_flag e timestamp_default0 = Ok flag /\
    let template := template_of (variant_of fv) in
    let args := template_args_of e d fv content name email flag (ticks st) in
    events st' = events st ++ ERenderTemplate template args :: evs /\
    render_template e template args = Ok (body_html m) /\
    subject m = subject_line e (variant_of fv) (contact_type_of d fv) flag
                             (ticks st) /\
    ticks st' = ticks st + 1 + 2 * clock_reads flag /\
    (flag = false -> t_subject args = subject m).
Proof.
  intros H. apply submit_compose_ok in H
    as (fv & c & n & em & flag & html & Hfv & Hc & Hn & He & Hflag & Hr & H).
  cbv zeta in *.
  apply submit_reroute_ok in H as (Ht & (evs & Hev) & Hm & _).
  exists fv, c, n, em, flag, evs. repeat (split; [done|]).
  cbn [ticks events] in Ht, Hev.
  split; [by rewrite Hev, <- app_assoc|].
  assert (Hh : body_html m = html /\
               subject m = subject_line e (variant_of fv)
                             (contact_type_of d fv) flag (ticks st)).
  { destruct Hm as [->| ->]; by cbn. }
  destruct Hh as [-> Hs]. split; [done|]. split; [done|].
  split; [rewrite Ht; destruct flag; cbn; lia|].
  intros ->. by rewrite Hs.
Qed.

(** X12. Every message [submit] composes has the email of the submitter
    as its 'Reply-to' header and no header other than 'Reply-to' and 'cc';
    its [recipient_name] is the configured one, also when the message is
    rerouted; its plain-text body is the lines of [body_parts] joined by
    newlines. *)
Theorem compose_envelope e d st m d' st' :
  submit_compose e d st = (Ok (m, d'), st') ->
  exists fv content name email,
    d !! "form_variant" = Some fv /\ d !! "content" = Some content /\
    d !! "name" = Some name /\ d !! "email" = Some email /\
    headers m !! "Reply-to" = Some (VStr email) /\
    (forall k, k <> "Reply-to" -> k <> "cc" -> headers m !! k = None) /\
    recipient_name m = default_recipient_name e /\
    body m = String.concat nl (body_lines d fv content name email).
Proof.
  intros H. apply submit_compose_ok in H
    as (fv & c & n & em & flag & html & Hfv & Hc & Hn & He & Hflag & Hr & H).
  cbv zeta in *.
  apply submit_reroute_ok in H as (_ & _ & Hm & _).
  exists fv, c, n, em. repeat (split; [done|]).
  destruct Hm as [->| ->]; cbn [headers recipient_name body composed].
  - split; [by rewrite lookup_singleton_eq|]. split; [|done].
    intros k Hk _. by rewrite lookup_singleton_ne.
  - split; [by rewrite lookup_insert_ne, lookup_singleton_eq|].
    split; [|done]. intros k Hk Hcc.
    by rewrite lookup_insert_ne, lookup_singleton_ne.
Qed.

(** X13. Composing changes [data_dict] only at 'form_variant', 'pkg-url',
    'contact_type', 'resource', 'maintainer', 'url' and 'contact_dest':
    every other field is returned as received, no field is removed, the six
    normalised fields are always present afterwards, and 'contact_dest' is
    'data-hub-support' unless the submission set it. *)
Theorem compose_preserves_fields e d st m d' st' :
  submit_compose e d st = (Ok (m, d'), st') ->
  (forall k, k ∉ touched_fields -> k <> "contact_dest" -> d' !! k = d !! k) /\
  d' !! "contact_dest"
    = Some (default "data-hub-support" (d !! "contact_dest")) /\
  (forall k, is_Some (d !! k) -> is_Some (d' !! k)) /\
  (forall k, k ∈ touched_fields -> exists v, d' !! k = Some v).
Proof.
  intros H. apply submit_compose_ok in H
    as (fv & c & n & em & flag & html & Hfv & Hc & Hn & He & Hflag & Hr & H).
  cbv zeta in *.
  apply submit_reroute_ok in H as (_ & _ & _ & Hd').
  rewrite normalized_lookup_ne in Hd' by by_evaluation.
  assert (Hne : forall k, k <> "contact_dest" -> d' !! k = normalized d fv !! k).
  { intros k Hk. subst d'. destruct (d !! "contact_dest"); [done|].
    by rewrite lookup_insert_ne. }
  assert (Htouched : forall k, k ∈ touched_fields ->
                               exists v, d' !! k = Some v).
  { intros k Hk. unfold touched_fields in Hk.
    repeat (apply elem_of_cons in Hk as [->|Hk]);
      [| | | | | |by apply elem_of_nil in Hk];
      (rewrite Hne by done); eexists; lookup_normalized. }
  assert (Hdest : d' !! "contact_dest"
                  = Some (default "data-hub-support" (d !! "contact_dest"))).
  { subst d'. destruct (d !! "contact_dest") as [dest|] eqn:Hdest; cbn.
    - by rewrite normalized_lookup_ne by by_evaluation.
    - by rewrite lookup_insert_eq. }
  split; [|split; [done|split; [|done]]].
  - intros k Hk Hdk. rewrite Hne by done. by apply normalized_lookup_ne.
  - intros k Hk. destruct (decide (k = "contact_dest")) as [->|Hdk];
      [by rewrite Hdest|].
    destruct (decide (k ∈ touched_fields)) as [Hin|Hout].
    + destruct (Htouched k Hin) as [v ->]. by eexists.
    + by rewrite Hne, normalized_lookup_ne.
Qed.

Lemma compose_template_witness :
  let r := submit_compose site_timestamps form_ok st0 in
  exists args evs,
    events r.2 = ERenderTemplate "emails/contact.html" args :: evs /\
    subject (composed_mail r)
      = "Contact from visitor : Question [2024-03-09 14:05:00 UTC]" /\
    t_timestamp args = "2024-03-09 14:05:01 UTC" /\
    t_subject args
      = "Contact from visitor : Question [2024-03-09 14:05:02 UTC]" /\
    ticks r.2 = 3.
Proof.
  intros r.
  assert (H : r = (Ok (composed_mail r, composed_data r), r.2)) by by_evaluation.
  destruct (compose_template site_timestamps form_ok st0 _ _ _ H)
    as (fv & c & n & em & flag & evs & Hfv & Hc & Hn & He & Hflag & Hev & _ &
        Hs & Ht & _).
  vm_compute in Hfv, Hc, Hn, He, Hflag.
  injection Hfv as <-. injection Hc as <-. injection Hn as <-.
  injection He as <-. injection Hflag as <-.
  exists (template_args_of site_timestamps form_ok "" "Hi" "A" "a@b.com" true 0),
         evs.
  split; [rewrite Hev; f_equal; f_equal; by_evaluation|].
  split; [rewrite Hs; by_evaluation|].
  split; [by_evaluation|]. split; [by_evaluation|].
  rewrite Ht. reflexivity.
Defined.

Lemma compose_envelope_witness :
  let r := submit_compose site form_dataset st0 in
  headers (composed_mail r) !! "Reply-to" = Some (VStr "a@b.com") /\
  headers (composed_mail r) !! "X-Mailer" = None /\
  recipient_name (composed_mail r) = VStr "Data Hub".
Proof.
  intros r.
  assert (H : r = (Ok (composed_mail r, composed_data r), r.2)) by by_evaluation.
  destruct (compose_envelope site form_dataset st0 _ _ _ H)
    as (fv & c & n & em & _ & _ & _ & He & Hrt & Hno & Hname & _).
  vm_compute in He. injection He as <-.
  split; [exact Hrt|]. split; [by apply Hno|].
  rewrite Hname. by_evaluation.
Defined.

Lemma compose_preserves_fields_witness :
  let r := submit_compose site form_extra st0 in
  composed_data r !! "newsletter" = Some "yes" /\
  composed_data r !! "contact_dest" = Some "data-hub-support" /\
  exists v, composed_data r !! "pkg-url" = Some v.
Proof.
  intros r.
  assert (H : r = (Ok (composed_mail r, composed_data r), r.2)) by by_evaluation.
  destruct (compose_preserves_fields site form_extra st0 _ _ _ H)
    as (Hsame & Hdest & _ & Htouched).
  split; [|split].
  - rewrite Hsame; [by_evaluation|by_evaluation|discriminate].
  - rewrite Hdest. by_evaluation.
  - apply Htouched. by_evaluation.
Defined.

(** ** Dataset lookup *)

(** The rerouting step when the submission names a dataset and a
    destination other than the support desk. *)
Lemma submit_reroute_lookup e m d st dest id :
  d !! "contact_dest" = Some dest -> dest <> "data-hub-support" ->
  d !! "pkg-id" = Some id -> id <> "" ->
  submit_reroute e m d st =
  let st1 := State (ticks st) (events st ++ [EPackageShow id]) in
  match package_show e id with
  | Raise ex => (Raise ex, st1)
  | Ok pkg =>
      match pkg !! "data_contact_email" with
      | None => (Raise (KeyError "data_contact_email"), st1)
      | Some v =>
          if truthy v
          then (Ok (MailDict v (recipient_name m) (subject m) (body m)
                             (body_html m)
                             (<["cc" := recipient_email m]> (headers m)), d),
                st1)
          else (Ok (m, d), st1)
      end
  end.
Proof.
  intros Hd Hne Hid Hne'. rewrite submit_reroute_run, Hd, Hid. cbv zeta.
  by rewrite !bool_decide_eq_true_2 by done.
Qed.

(** X14. A valid submission that names a dataset and a destination other
    than 'data-hub-support' depends on the dataset lookup: an exception
    raised by [package_show] leaves [submit] unhandled, and a dataset
    without a 'data_contact_email' key makes it raise
    [KeyError('data_contact_email')]; in both cases the mailer is not
    called. *)
Theorem submit_dataset_lookup_failure e d st fv dest id :
  (forall f, f ∈ required_fields -> ~ missing d f) ->
  check_recaptcha e (recaptcha_token d) (recaptcha_action e) = Ok tt ->
  d !! "form_variant" = Some fv ->
  (exists flag, timestamp_flag e timestamp_default0 = Ok flag) ->
  (forall t a, exists html, render_template e t a = Ok html) ->
  d !! "contact_dest" = Some dest -> dest <> "data-hub-support" ->
  d !! "pkg-id" = Some id -> id <> "" ->
  (forall ex, package_show e id = Raise ex ->
     exists st', submit e d st = (Raise ex, st') /\
                 sent (events st') = sent (events st)) /\
  (forall pkg, package_show e id = Ok pkg ->
     pkg !! "data_contact_email" = None ->
     exists st', submit e d st = (Raise (KeyError "data_contact_email"), st') /\
                 sent (events st') = sent (events st)).
Proof.
  intros Hreq Hcap Hfv [flag Hflag] Hrender Hdest Hne Hid Hne'.
  destruct (required_present d Hreq) as (c & n & em & Hc & Hn & He).
  pose proof (validate_passed e d st Hreq Hcap) as Hv.
  set (st1 := State _ _) in Hv.
  assert (Hrun : forall ex,
             match package_show e id with
             | Raise ex' => ex' = ex
             | Ok pkg => pkg !! "data_contact_email" = None /\
                         ex = KeyError "data_contact_email"
             end ->
             exists st', submit e d st = (Raise ex, st') /\
                         sent (events st') = sent (events st)).
  { intros ex Hex.
    destruct (submit_compose e d st1) as [r st2] eqn:Hcomp.
    exists st2.
    pose proof (silent_run _ _ _ _ (silent_submit_compose e d) Hcomp) as Hs.
    rewrite Hs, (silent_run _ _ _ _ (silent_validate e d) Hv).
    split; [|done].
    rewrite (submit_after_validate e d st st1 Hv), Hcomp.
    rewrite (submit_compose_run e d st1 fv c n em flag) in Hcomp by done.
    cbv zeta in Hcomp.
    destruct (Hrender (template_of (variant_of fv))
                (template_args_of e d fv c n em flag (ticks st1)))
      as [html Hhtml].
    rewrite Hhtml in Hcomp.
    rewrite (submit_reroute_lookup e _ _ _ dest id) in Hcomp
      by (by rewrite ?normalized_lookup_ne by by_evaluation).
    cbv zeta in Hcomp.
    destruct (package_show e id) as [pkg|ex'].
    - destruct Hex as [Hnone ->]. rewrite Hnone in Hcomp.
      by injection Hcomp as <- <-.
    - subst ex'. by injection Hcomp as <- <-. }
  split.
  - intros ex Hex. apply Hrun. by rewrite Hex.
  - intros pkg Hpkg Hnone. apply Hrun. by rewrite Hpkg.
Qed.

Lemma submit_dataset_lookup_failure_witness :
  exists st', submit site form_unknown_dataset st0
              = (Raise (OtherError "NotFound"), st') /\
              sent (events st') = sent (events st0).
Proof.
  assert (Hreq : forall f, f ∈ required_fields -> ~ missing form_unknown_dataset f).
  { apply Forall_forall. by_evaluation. }
  assert (Hcap : check_recaptcha site (recaptcha_token form_unknown_dataset)
                   (recaptcha_action site) = Ok tt) by by_evaluation.
  assert (Hfv : form_unknown_dataset !! "form_variant" = Some "") by by_evaluation.
  assert (Hflag : exists flag, timestamp_flag site timestamp_default0 = Ok flag).
  { exists false. by_evaluation. }
  assert (Hrender : forall t a, exists html, render_template site t a = Ok html).
  { intros t a. eexists. reflexivity. }
  assert (Hdest : form_unknown_dataset !! "contact_dest" = Some "dataset-contact")
    by by_evaluation.
  assert (Hne : "dataset-contact" <> "data-hub-support") by discriminate.
  assert (Hid : form_unknown_dataset !! "pkg-id" = Some "ds404") by by_evaluation.
  assert (Hne' : "ds404" <> "") by discriminate.
  assert (Hshow : package_show site "ds404" = Raise (OtherError "NotFound"))
    by by_evaluation.
  exact (proj1 (submit_dataset_lookup_failure site form_unknown_dataset st0 _ _ _
                  Hreq Hcap Hfv Hflag Hrender Hdest Hne Hid Hne') _ Hshow).
Defined.

(** ** Plugins *)

(** X15. Serving the plugins [ps1 ++ ps2] is serving [ps1] and then [ps2]
    on what [ps1] left, the count of plugins served carried over. *)
Theorem submit_dispatch_app ps1 ps2 n m d st :
  submit_dispatch (ps1 ++ ps2) n m d st =
  (let! (m', d') := submit_dispatch ps1 n m d in
   submit_dispatch ps2 (n + length ps1) m' d') st.
Proof.
  revert n m d st. induction ps1 as [|p ps1 IH]; intros n m d st.
  - cbn [app submit_dispatch length]. unfold bind, ret.
    by rewrite Nat.add_0_r.
  - cbn [app submit_dispatch length]. unfold bind at 1 3. unfold emit at 1 2.
    unfold bind at 1 3. unfold lift at 1 2.
    destruct (p m d) as [[m1 d1]|ex].
    + rewrite IH. unfold bind. by rewrite Nat.add_succ_r.
    + unfold bind. reflexivity.
Qed.


(** ** Runs that return *)

Lemma submit_dispatch_ok ps n m d st :
  Forall (fun p => forall m d, exists r, p m d = Ok r) ps ->
  exists m' d' st', submit_dispatch ps n m d st = (Ok (m', d'), st').
Proof.
  intros Hps. revert n m d st.
  induction Hps as [|p ps Hp _ IH]; intros n m d st; cbn [submit_dispatch].
  - by eexists _, _, _.
  - destruct (Hp m d) as [[m1 d1] Hr]. unfold bind, emit, lift. rewrite Hr.
    apply IH.
Qed.

Lemma submit_reroute_returns e m d st :
  (forall id, d !! "pkg-id" = Some id ->
              exists pkg v, package_show e id = Ok pkg /\
                            pkg !! "data_contact_email" = Some v) ->
  exists m' d' st', submit_reroute e m d st = (Ok (m', d'), st').
Proof.
  intros Hshow. rewrite submit_reroute_run. cbv zeta.
  destruct (d !! "contact_dest") as [dest|]; [|by eexists _, _, _].
  destruct (d !! "pkg-id") as [id|]; [|by eexists _, _, _].
  destruct (_ && _); [|by eexists _, _, _].
  destruct (Hshow id eq_refl) as (pkg & v & -> & ->).
  destruct (truthy v); by eexists _, _, _.
Qed.

(** X17. [submit] returns an outcome, and raises nothing, whenever the
    submission has the key 'form_variant' and the collaborators stay within
    what the module handles: [check_recaptcha] raises nothing but
    [RecaptchaError], the timestamp flag is readable, the template renders,
    a named dataset can be shown and has a 'data_contact_email' key, the
    plugins return, and [mail_recipient] raises nothing but
    [MailerException] and [socket.error]. *)
Theorem submit_returns e d st fv :
  d !! "form_variant" = Some fv ->
  (forall tok act ex, check_recaptcha e tok act = Raise ex ->
                      exists reason, ex = RecaptchaError reason) ->
  (exists flag, timestamp_flag e timestamp_default0 = Ok flag) ->
  (forall t a, exists html, render_template e t a = Ok html) ->
  (forall id, d !! "pkg-id" = Some id ->
              exists pkg v, package_show e id = Ok pkg /\
                            pkg !! "data_contact_email" = Some v) ->
  Forall (fun p => forall m d, exists r, p m d = Ok r) (plugins e) ->
  (forall m ex, mail_recipient e m = Raise ex ->
                exists msg, ex = MailerException msg \/ ex = SocketError msg) ->
  exists o st', submit e d st = (Ok o, st').
Proof.
  intros Hfv Hcap [flag Hflag] Hrender Hshow Hps Hmail.
  destruct (decide (Forall (fun f => ~ missing d f) required_fields)) as [Hok|Hd].
  - rewrite Forall_forall in Hok.
    destruct (check_recaptcha e (recaptcha_token d) (recaptcha_action e))
      as [[]|ex] eqn:Hc.
    + pose proof (validate_passed e d st Hok Hc) as Hv.
      set (st1 := State _ _) in Hv.
      rewrite (submit_after_validate e d st st1 Hv).
      destruct (required_present d Hok) as (c & n & em & Hcn & Hn & He).
      rewrite (submit_compose_run e d st1 fv c n em flag) by done. cbv zeta.
      destruct (Hrender (template_of (variant_of fv))
                  (template_args_of e d fv c n em flag (ticks st1)))
        as [html ->].
      edestruct (submit_reroute_returns e
                   (composed e d fv c n em flag (ticks st1) html)
                   (normalized d fv)) as (m & d1 & st2 & ->).
      { intros id. rewrite normalized_lookup_ne by by_evaluation. apply Hshow. }
      destruct (submit_dispatch_ok (plugins e) 0 m d1 st2 Hps)
        as (m' & d' & st3 & ->).
      destruct (mail_recipient e m') as [u|ex] eqn:Hm; [by eexists _, _|].
      destruct (Hmail m' ex Hm) as [msg [-> | ->]]; by eexists _, _.
    + destruct (Hcap _ _ _ Hc) as [reason ->].
      pose proof (validate_clean e d st Hok) as Hv. cbv zeta in Hv.
      fold (recaptcha_token d) (recaptcha_action e) in Hv. rewrite Hc in Hv.
      eexists _, _. apply (submit_rejected _ _ _ _ _ _ _ Hv). by right.
  - apply not_Forall_Exists in Hd; [|apply _]. apply Exists_exists in Hd.
    destruct Hd as (f & Hin & Hm). apply dec_stable in Hm.
    assert (Hdirty : exists f, f ∈ required_fields /\ missing d f) by eauto.
    eexists _, _. apply (submit_rejected _ _ _ _ _ _ _ (validate_dirty e d st Hdirty)).
    left. by apply validate_fold_dirty.
Qed.

Lemma submit_returns_witness :
  exists o st', submit site form_dataset st0 = (Ok o, st').
Proof.
  assert (Hfv : form_dataset !! "form_variant" = Some "") by by_evaluation.
  assert (Hcap : forall tok act ex, check_recaptcha site tok act = Raise ex ->
                   exists reason, ex = RecaptchaError reason)
    by (intros tok act ex H; discriminate H).
  assert (Hflag : exists flag, timestamp_flag site timestamp_default0 = Ok flag).
  { exists false. by_evaluation. }
  assert (Hrender : forall t a, exists html, render_template site t a = Ok html).
  { intros t a. eexists. reflexivity. }
  assert (Hshow : forall id, form_dataset !! "pkg-id" = Some id ->
                    exists pkg v, package_show site id = Ok pkg /\
                                  pkg !! "data_contact_email" = Some v).
  { intros id Hid. vm_compute in Hid. injection Hid as <-.
    exists (<["data_contact_email" := VStr "owner@example.org"]> ∅),
           (VStr "owner@example.org").
    split; by_evaluation. }
  assert (Hps : Forall (fun p : mail_dict -> gmap string string ->
                                result (mail_dict * gmap string string) =>
                          forall m d, exists r, p m d = Ok r) (plugins site))
    by apply Forall_nil_2.
  assert (Hmail : forall m ex, mail_recipient site m = Raise ex ->
                    exists msg, ex = MailerException msg \/ ex = SocketError msg)
    by (intros m ex H; discriminate H).
  exact (submit_returns site form_dataset st0 "" Hfv Hcap Hflag Hrender Hshow
           Hps Hmail).
Defined.

(** X18. The plain case in closed form: for a valid submission that names
    no dataset, on a site without plugins whose mailer accepts the message,
    [submit] returns [success] True with the normalised submission
    ([delivered_data]) and has handed the mailer exactly the message
    [composed]: configured recipient and name, subject of [build_subject],
    the body lines, the rendered template and the 'Reply-to' header. *)
Theorem submit_delivers e d st fv content name email flag html :
  (forall f, f ∈ required_fields -> ~ missing d f) ->
  check_recaptcha e (recaptcha_token d) (recaptcha_action e) = Ok tt ->
  d !! "form_variant" = Some fv -> d !! "content" = Some content ->
  d !! "name" = Some name -> d !! "email" = Some email ->
  timestamp_flag e timestamp_default0 = Ok flag ->
  render_template e (template_of (variant_of fv))
    (template_args_of e d fv content name email flag (ticks st)) = Ok html ->
  absent_or_empty d "pkg-id" = true ->
  plugins e = [] ->
  let m := composed e d fv content name email flag (ticks st) html in
  (mail_recipient e m = Ok tt ->
   exists st', submit e d st = (Ok (Outcome true (delivered_data d fv) ∅ ∅ None), st')
               /\ sent (events st') = sent (events st) ++ [m]).
Proof.
  intros Hreq Hcap Hfv Hc Hn He Hflag Hrender Hid Hps m Hm.
  pose proof (validate_passed e d st Hreq Hcap) as Hv.
  set (st1 := State _ _) in Hv.
  rewrite (submit_after_validate e d st st1 Hv).
  rewrite (submit_compose_run e d st1 fv content name email flag) by done.
  cbv zeta. change (ticks st1) with (ticks st). rewrite Hrender.
  rewrite submit_reroute_run. cbv zeta.
  rewrite !normalized_lookup_ne by by_evaluation.
  assert (Hnolookup :
    match d !! "contact_dest", d !! "pkg-id" with
    | Some dest, Some id =>
        bool_decide (dest <> "data-hub-support") && bool_decide (id <> "")
    | _, _ => false
    end = false).
  { unfold absent_or_empty in Hid. destruct (d !! "contact_dest"); [|done].
    destruct (d !! "pkg-id") as [id|]; [|done].
    apply bool_decide_eq_true_1 in Hid as ->.
    by rewrite (bool_decide_eq_false_2 ("" <> "")), andb_false_r by (by intros ?). }
  unfold delivered_data. fold m.
  destruct (d !! "contact_dest") as [dest|]; [destruct (d !! "pkg-id") as [id|]|];
    rewrite ?Hnolookup, Hps; cbn [submit_dispatch]; unfold ret; rewrite Hm;
    (eexists; split; [reflexivity|]); subst st1; cbn [events];
    rewrite !sent_app; cbn [sent flat_map app]; by rewrite ?app_nil_r.
Qed.

Lemma submit_delivers_witness :
  exists st',
    submit site form_ok st0
      = (Ok (Outcome true (delivered_data form_ok "") ∅ ∅ None), st') /\
    sent (events st') =
      sent (events st0)
      ++ [composed site form_ok "" "Hi" "A" "a@b.com" false 0 "<p>Hi</p>"].
Proof.
  assert (Hreq : forall f, f ∈ required_fields -> ~ missing form_ok f).
  { apply Forall_forall. by_evaluation. }
  assert (Hcap : check_recaptcha site (recaptcha_token form_ok)
                   (recaptcha_action site) = Ok tt) by by_evaluation.
  assert (Hfv : form_ok !! "form_variant" = Some "") by by_evaluation.
  assert (Hc : form_ok !! "content" = Some "Hi") by by_evaluation.
  assert (Hn : form_ok !! "name" = Some "A") by by_evaluation.
  assert (He : form_ok !! "email" = Some "a@b.com") by by_evaluation.
  assert (Hflag : timestamp_flag site timestamp_default0 = Ok false)
    by by_evaluation.
  assert (Hrender :
    render_template site (template_of (variant_of ""))
      (template_args_of site form_ok "" "Hi" "A" "a@b.com" false (ticks st0))
    = Ok "<p>Hi</p>") by by_evaluation.
  assert (Hid : absent_or_empty form_ok "pkg-id" = true) by by_evaluation.
  assert (Hps : plugins site = []) by reflexivity.
  assert (Hm : mail_recipient site
                 (composed site form_ok "" "Hi" "A" "a@b.com" false (ticks st0)
                           "<p>Hi</p>") = Ok tt) by reflexivity.
  exact (submit_delivers site form_ok st0 "" "Hi" "A" "a@b.com" false "<p>Hi</p>"
           Hreq Hcap Hfv Hc Hn He Hflag Hrender Hid Hps Hm).
Defined.


(** ** Normalising twice *)

Lemma variant_of_idem fv : variant_of (variant_of fv) = variant_of fv.
Proof. unfold variant_of. by repeat case_bool_decide. Qed.

Lemma field_or_nonempty d k dflt : dflt <> "" -> field_or d k dflt <> "".
Proof.
  intros Hd. unfold field_or. destruct (d !! k) as [v|]; [|done].
  by case_bool_decide.
Qed.

Lemma field_or_some d k v dflt :
  d !! k = Some v -> v <> "" -> field_or d k dflt = v.
Proof.
  intros Hk Hv. unfold field_or. rewrite Hk.
  by rewrite bool_decide_eq_false_2.
Qed.

Lemma contact_type_of_nonempty d fv : contact_type_of d fv <> "".
Proof.
  unfold contact_type_of. destruct (_ && _); [done|].
  by apply field_or_nonempty.
Qed.

Lemma normalized_idem d fv :
  normalized (normalized d fv) (variant_of fv) = normalized d fv.
Proof.
  set (d1 := normalized d fv).
  assert (Hpu : field_or d1 "pkg-url" "" = field_or d "pkg-url" "").
  { unfold field_or at 1. subst d1.
    replace (normalized d fv !! "pkg-url") with (Some (field_or d "pkg-url" ""))
      by (symmetry; lookup_normalized).
    by case_bool_decide. }
  assert (Hct : contact_type_of d1 (variant_of fv) = contact_type_of d fv).
  { unfold contact_type_of at 1. rewrite variant_of_idem.
    rewrite (field_or_some d1 "contact_type" (contact_type_of d fv))
      by (by subst d1; first [lookup_normalized | apply contact_type_of_nonempty]).
    unfold contact_type_of.
    destruct (bool_decide (variant_of fv = "suggest_dataset")); [|done].
    cbn [andb]. by repeat case_bool_decide. }
  assert (Hopt : forall k, k ∈ ["resource"; "maintainer"; "url"] ->
                           optional_of d1 (variant_of fv) k = optional_of d fv k).
  { intros k Hk. unfold optional_of. rewrite variant_of_idem.
    case_bool_decide as Hs; [|done].
    apply field_or_some; [|by apply field_or_nonempty].
    subst d1.
    repeat (apply elem_of_cons in Hk as [->|Hk]);
      [| | |by apply elem_of_nil in Hk];
      unfold normalized, optional_of; rewrite !bool_decide_eq_true_2 by done;
      repeat first [rewrite lookup_insert_eq | rewrite lookup_insert_ne by done];
      done. }
  assert (L1 : d1 !! "url" = Some (optional_of d fv "url"))
    by (subst d1; lookup_normalized).
  assert (L2 : d1 !! "maintainer" = Some (optional_of d fv "maintainer"))
    by (subst d1; lookup_normalized).
  assert (L3 : d1 !! "resource" = Some (optional_of d fv "resource"))
    by (subst d1; lookup_normalized).
  assert (L4 : d1 !! "contact_type" = Some (contact_type_of d fv))
    by (subst d1; lookup_normalized).
  assert (L5 : d1 !! "pkg-url" = Some (field_or d "pkg-url" ""))
    by (subst d1; lookup_normalized).
  assert (L6 : d1 !! "form_variant" = Some (variant_of fv))
    by (subst d1; lookup_normalized).
  unfold normalized at 1.
  rewrite variant_of_idem, Hpu, Hct, !Hopt by by_evaluation.
  rewrite (insert_id d1 "url") by done.
  rewrite (insert_id d1 "maintainer") by done.
  rewrite (insert_id d1 "resource") by done.
  rewrite (insert_id d1 "contact_type") by done.
  rewrite (insert_id d1 "pkg-url") by done.
  by rewrite (insert_id d1 "form_variant") by done.
Qed.

(** X19. Lines 95-135 are idempotent on [data_dict]: run again on the
    submission they returned, they return the same submission.  The body
    differs: the second run never adds the 'Contact Type' line, since the
    contact type is now set. *)
Theorem submit_normalize_idempotent d st d1 body_parts st' :
  submit_normalize d st = (Ok (d1, body_parts), st') ->
  exists body_parts',
    submit_normalize d1 st = (Ok (d1, body_parts'), st) /\
    contact_type_lines d1 = [].
Proof.
  intros H. pose proof H as H0.
  apply submit_normalize_inv in H0
    as (_ & fv & c & n & em & Hfv & Hc & Hn & He & _).
  rewrite (submit_normalize_closed d st fv c n em) in H by done.
  injection H as <- <- <-.
  rewrite (submit_normalize_closed (normalized d fv) st (variant_of fv) c n em);
    [| lookup_normalized
     | by rewrite normalized_lookup_ne by by_evaluation..].
  rewrite normalized_idem. eexists. split; [reflexivity|].
  unfold contact_type_lines, absent_or_empty.
  replace (normalized d fv !! "contact_type")
    with (Some (contact_type_of d fv)) by (symmetry; lookup_normalized).
  rewrite bool_decide_eq_false_2; [done|apply contact_type_of_nonempty].
Qed.

Lemma submit_normalize_idempotent_witness :
  let r := submit_normalize form_suggestion st0 in
  exists d1 body_parts',
    r.1 = Ok (d1, body_parts') /\
    exists body_parts'',
      submit_normalize d1 st0 = (Ok (d1, body_parts''), st0).
Proof.
  intros r.
  set (d1 := match r.1 with Ok (d1, _) => d1 | Raise _ => ∅ end).
  set (bp := match r.1 with Ok (_, bp) => bp | Raise _ => [] end).
  assert (H : r = (Ok (d1, bp), r.2)) by by_evaluation.
  destruct (submit_normalize_idempotent form_suggestion st0 d1 bp r.2 H)
    as (bp' & Hrun & _).
  exists d1, bp. split; [exact (f_equal fst H)|]. exists bp'. exact Hrun.
Defined.

(** ** Failures of the composer *)

(** X20. For a valid submission with its variant: when [asbool] rejects
    the configured 'add_timestamp_to_subject', [submit] raises that error
    right after the reCAPTCHA check, before anything is rendered or sent;
    when the template fails to render, [submit] raises the error of
    [render_template] and nothing is sent. *)
Theorem submit_composer_failure e d st fv content name email :
  (forall f, f ∈ required_fields -> ~ missing d f) ->
  check_recaptcha e (recaptcha_token d) (recaptcha_action e) = Ok tt ->
  d !! "form_variant" = Some fv -> d !! "content" = Some content ->
  d !! "name" = Some name -> d !! "email" = Some email ->
  let st1 := State (ticks st)
                   (events st ++
                    [ECheckRecaptcha (recaptcha_token d) (recaptcha_action e)]) in
  (forall ex, timestamp_flag e timestamp_default0 = Raise ex ->
              submit e d st = (Raise ex, st1)) /\
  (forall flag ex,
     timestamp_flag e timestamp_default0 = Ok flag ->
     let template := template_of (variant_of fv) in
     let args := template_args_of e d fv content name email flag (ticks st) in
     render_template e template args = Raise ex ->
     submit e d st =
     (Raise ex,
      State (ticks st + clock_reads flag + 1 + clock_reads flag)
            (events st1 ++ [ERenderTemplate template args]))).
Proof.
  intros Hreq Hcap Hfv Hc Hn He st1.
  pose proof (validate_passed e d st Hreq Hcap) as Hv. fold st1 in Hv.
  split.
  - intros ex Hflag. rewrite (submit_after_validate e d st st1 Hv).
    unfold submit_compose.
    rewrite (bind_ok _ _ _ _ _
               (submit_normalize_closed d st1 fv content name email Hfv Hc Hn He)).
    cbn match.
    rewrite (bind_raise _ _ _ ex st1); [done|].
    apply (submit_mail_dict_bad_flag e _ _ _ (variant_of fv)
             (contact_type_of d fv)); [lookup_normalized..|done].
  - intros flag ex Hflag template args Hrender.
    rewrite (submit_after_validate e d st st1 Hv).
    rewrite (submit_compose_run e d st1 fv content name email flag) by done.
    cbv zeta. change (ticks st1) with (ticks st).
    fold template args. by rewrite Hrender.
Qed.

Lemma submit_composer_failure_witness :
  exists msg,
    submit site_bad_flag form_ok st0 =
    (Raise (ValueError msg), State 0 [ECheckRecaptcha VNone VNone]).
Proof.
  assert (Hreq : forall f, f ∈ required_fields -> ~ missing form_ok f).
  { apply Forall_forall. by_evaluation. }
  assert (Hcap : check_recaptcha site_bad_flag (recaptcha_token form_ok)
                   (recaptcha_action site_bad_flag) = Ok tt) by by_evaluation.
  assert (Hfv : form_ok !! "form_variant" = Some "") by by_evaluation.
  assert (Hc : form_ok !! "content" = Some "Hi") by by_evaluation.
  assert (Hn : form_ok !! "name" = Some "A") by by_evaluation.
  assert (He : form_ok !! "email" = Some "a@b.com") by by_evaluation.
  assert (Hflag : timestamp_flag site_bad_flag timestamp_default0
                  = Raise (ValueError "String is not true/false: maybe"))
    by by_evaluation.
  exists "String is not true/false: maybe".
  exact (proj1 (submit_composer_failure site_bad_flag form_ok st0 "" "Hi" "A"
                  "a@b.com" Hreq Hcap Hfv Hc Hn He) _ Hflag).
Defined.
